(** * Teaching-assistant UI: navigation sidebar and avatar panel

    A shallow embedding of
    [teaching-assistant/src/components/NavigationSidebar.tsx] (the sidebar's
    click handlers) and of the [AvatarContainer] component that follows it in
    the same source file (lifecycle callbacks, the two effects and the
    elapsed-seconds timer).

    Handlers are written in a small state / trace / exception monad, so that
    the order of the calls a handler makes on its collaborators (streaming
    client, router, view context, logger) can be read off the trace it
    produces, and a rejected promise that nobody catches shows up as a
    [Thrown] completion. *)

From Stdlib Require Import Ascii String List ZArith Bool Lia.
Import ListNotations.
Open Scope string_scope.
Open Scope list_scope.

(** ** Values shared by both components *)

(** A JavaScript error value; only its identity matters here. *)
Definition Error := string.

(** How a promise settles. *)
Inductive Settled : Type :=
| Fulfilled
| Rejected (e : Error).

(** Completion of a piece of code: normal, or by a thrown error. *)
Inductive Completion (A : Type) : Type :=
| Normal (a : A)
| Thrown (e : Error).
Arguments Normal {A} a.
Arguments Thrown {A} e.

(** ** The external streaming client (SDK)

    The SDK is an external collaborator.  Its subscription interface is keyed
    by event names and takes callback references; a callback reference is
    identified by the component instance that created it (through
    [useCallback]) and by which of the component's callbacks it is. *)
Module Anam.

Inductive AnamEvent : Type :=
| CONNECTION_ESTABLISHED
| VIDEO_PLAY_STARTED
| CONNECTION_CLOSED
| OTHER_EVENT (name : string).

Inductive Handler : Type :=
| onConnectionEstablished
| onVideoStartedStreaming
| onConnectionClosed.

Record Callback : Type := mkCallback {
  owner : nat;
  handler : Handler
}.

Definition Listener : Type := (AnamEvent * Callback)%type.

Definition AnamEvent_eqb (a b : AnamEvent) : bool :=
  match a, b with
  | CONNECTION_ESTABLISHED, CONNECTION_ESTABLISHED => true
  | VIDEO_PLAY_STARTED, VIDEO_PLAY_STARTED => true
  | CONNECTION_CLOSED, CONNECTION_CLOSED => true
  | OTHER_EVENT x, OTHER_EVENT y => String.eqb x y
  | _, _ => false
  end.

Definition Handler_eqb (a b : Handler) : bool :=
  match a, b with
  | onConnectionEstablished, onConnectionEstablished => true
  | onVideoStartedStreaming, onVideoStartedStreaming => true
  | onConnectionClosed, onConnectionClosed => true
  | _, _ => false
  end.

Definition Callback_eqb (a b : Callback) : bool :=
  Nat.eqb (owner a) (owner b) && Handler_eqb (handler a) (handler b).

Definition Listener_eqb (a b : Listener) : bool :=
  AnamEvent_eqb (fst a) (fst b) && Callback_eqb (snd a) (snd b).

(** The client object: its listener registry (mutable), and how the
    promises returned by its two asynchronous calls settle. *)
Record AnamClient : Type := mkClient {
  listeners : list Listener;
  stopStreaming_result : Settled;
  streamToVideoAndAudioElements_result : Settled
}.

Definition set_listeners (l : list Listener) (c : AnamClient) : AnamClient :=
  {| listeners := l;
     stopStreaming_result := stopStreaming_result c;
     streamToVideoAndAudioElements_result :=
       streamToVideoAndAudioElements_result c |}.

(** Removal of the first registration of a listener, if there is one. *)
Fixpoint remove_first (x : Listener) (l : list Listener) : list Listener :=
  match l with
  | [] => []
  | y :: l' => if Listener_eqb x y then l' else y :: remove_first x l'
  end.

Definition addListener (ev : AnamEvent) (cb : Callback) (c : AnamClient)
  : AnamClient :=
  set_listeners (listeners c ++ [(ev, cb)]) c.

Definition removeListener (ev : AnamEvent) (cb : Callback) (c : AnamClient)
  : AnamClient :=
  set_listeners (remove_first (ev, cb) (listeners c)) c.

End Anam.
Import Anam.

(** ** Observable calls *)

Inductive Event : Type :=
| Call_stopStreaming
| Call_addListener (ev : AnamEvent) (cb : Callback)
| Call_removeListener (ev : AnamEvent) (cb : Callback)
| Call_streamToVideoAndAudioElements (videoElementId audioElementId : string)
| Promise_settled (s : Settled)
| Logger_error (msg : string) (e : Error)
| Logger_info (msg : string)
| Console_error (e : Error)
| ErrorHandler (e : Error)
| Router_push (path : string)
| ChangeView (view : string)
| SetOpen (b : bool)
| Call_setInterval (delay_ms : Z)
| Call_clearInterval (id : nat).

Definition is_stopStreaming (e : Event) : bool :=
  match e with Call_stopStreaming => true | _ => false end.

Definition is_router_push (e : Event) : bool :=
  match e with Router_push _ => true | _ => false end.

Definition is_changeView (e : Event) : bool :=
  match e with ChangeView _ => true | _ => false end.

Definition is_addListener (e : Event) : bool :=
  match e with Call_addListener _ _ => true | _ => false end.

Definition count (p : Event -> bool) (t : list Event) : nat :=
  length (filter p t).

(** [Before a b t]: the trace [t] has an occurrence of [a] followed, later,
    by an occurrence of [b]. *)
Definition Before (a b : Event) (t : list Event) : Prop :=
  exists t1 t2 t3, t = t1 ++ a :: t2 ++ b :: t3.

(** ** The monad: state, trace of calls, thrown errors *)

Definition M (S A : Type) : Type := S -> Completion A * S * list Event.

Definition ret {S A} (a : A) : M S A := fun s => (Normal a, s, []).

Definition bind {S A B} (m : M S A) (k : A -> M S B) : M S B :=
  fun s =>
    match m s with
    | (Normal a, s1, t1) =>
        match k a s1 with
        | (c, s2, t2) => (c, s2, t1 ++ t2)
        end
    | (Thrown e, s1, t1) => (Thrown e, s1, t1)
    end.

Notation "x <- m ;; k" := (bind m (fun x => k))
  (at level 61, m at next level, right associativity).
Notation "m ;; k" := (bind m (fun _ => k))
  (at level 61, right associativity).

Definition throw {S A} (e : Error) : M S A := fun s => (Thrown e, s, []).

Definition emit {S} (ev : Event) : M S unit := fun s => (Normal tt, s, [ev]).

Definition read {S A} (f : S -> A) : M S A := fun s => (Normal (f s), s, []).

Definition modify {S} (f : S -> S) : M S unit := fun s => (Normal tt, f s, []).

(** [try { body } catch (error) { h error }] *)
Definition try_catch {S A} (body : M S A) (h : Error -> M S A) : M S A :=
  fun s =>
    match body s with
    | (Normal a, s1, t1) => (Normal a, s1, t1)
    | (Thrown e, s1, t1) =>
        match h e s1 with
        | (c, s2, t2) => (c, s2, t1 ++ t2)
        end
    end.

(** A promise held by a handler: the pending promise of an external call
    (carrying how it is going to settle), or [p.catch(onRejected)]. *)
Inductive Promise (S : Type) : Type :=
| Pending (outcome : Settled)
| Catch (p : Promise S) (onRejected : Error -> M S unit).
Arguments Pending {S} outcome.
Arguments Catch {S} p onRejected.

(** Drives a promise to settlement: the external promise settles, then the
    rejection handlers chained on it run, innermost first.  A handler that
    returns fulfils the chained promise; one that throws rejects it. *)
Fixpoint settle {S} (p : Promise S) : M S Settled :=
  match p with
  | Pending s => emit (Promise_settled s) ;; ret s
  | Catch p' onRejected =>
      s <- settle p' ;;
      match s with
      | Fulfilled => ret Fulfilled
      | Rejected e =>
          fun st =>
            match onRejected e st with
            | (Normal _, st', t) => (Normal Fulfilled, st', t)
            | (Thrown e', st', t) => (Normal (Rejected e'), st', t)
            end
      end
  end.

(** [await p]: the code after it runs once [p] has settled; a rejected [p]
    is thrown at the await. *)
Definition await {S} (p : Promise S) : M S unit :=
  s <- settle p ;;
  match s with
  | Fulfilled => ret tt
  | Rejected e => throw e
  end.

(** ** NavigationSidebar *)
Module NavigationSidebar.

Inductive Icon : Type :=
| Book | Clipboard | Pencil | BarChart | Settings | X.

Record MenuItem : Type := mkMenuItem {
  title : string;
  navigateTo : string;
  icon : Icon;
  gap : option bool;
  clickable : bool
}.

Definition Menus : list MenuItem :=
  [ {| title := "Lessons"; navigateTo := "Demo"; icon := Book;
       gap := None; clickable := true |};
    {| title := "Vocabulary"; navigateTo := "Vocabulary"; icon := Clipboard;
       gap := None; clickable := false |};
    {| title := "Practice"; navigateTo := "Practice"; icon := Pencil;
       gap := Some true; clickable := false |};
    {| title := "Progress"; navigateTo := "Progress"; icon := BarChart;
       gap := None; clickable := false |};
    {| title := "Settings"; navigateTo := "Settings"; icon := Settings;
       gap := Some true; clickable := true |};
    {| title := "Exit"; navigateTo := "Initial"; icon := X;
       gap := Some true; clickable := true |} ].

(** What the handlers can change: the [open] flag of the sidebar, the
    current view held by the view context, and the page the router is on.
    The streaming client comes from the Anam context. *)
Record World : Type := mkWorld {
  open : bool;
  currentView : string;
  location : string;
  anamClient : option AnamClient
}.

Definition setOpen (b : bool) : M World unit :=
  emit (SetOpen b) ;;
  modify (fun w => {| open := b; currentView := currentView w;
                      location := location w; anamClient := anamClient w |}).

Definition changeView (v : string) : M World unit :=
  emit (ChangeView v) ;;
  modify (fun w => {| open := open w; currentView := v;
                      location := location w; anamClient := anamClient w |}).

Definition router_push (path : string) : M World unit :=
  emit (Router_push path) ;;
  modify (fun w => {| open := open w; currentView := currentView w;
                      location := path; anamClient := anamClient w |}).

Definition logger_error (msg : string) (e : Error) : M World unit :=
  emit (Logger_error msg e).

Definition logger_info (msg : string) : M World unit :=
  emit (Logger_info msg).

Definition console_error (e : Error) : M World unit :=
  emit (Console_error e).

(** [client.stopStreaming()]: the call is made now and returns a promise. *)
Definition stopStreaming (client : AnamClient) : M World (Promise World) :=
  emit Call_stopStreaming ;;
  ret (Pending (stopStreaming_result client)).

(** The handlers close over the values of the render they belong to. *)
Section Render.
Variable currentView_r : string.
Variable anamClient_r : option AnamClient.

Definition handleExitClick : M World unit :=
  match anamClient_r with
  | Some client =>
      p <- stopStreaming client ;;
      await (Catch p console_error) ;;
      logger_info "stopped streaming"
  | None => ret tt
  end ;;
  router_push "/" ;;
  changeView "Demo" ;;
  setOpen false.

Definition handleMenuClick (navigateTo : string) (clickable : bool)
  : M World unit :=
  if negb clickable then ret tt
  else
    (if navigateTo =? "Initial" then
       handleExitClick
     else
       (if (currentView_r =? "Demo") && negb (navigateTo =? "Demo") then
          match anamClient_r with
          | Some client =>
              p <- stopStreaming client ;;
              await (Catch p (fun error =>
                       logger_error "Failed to stop streaming:" error))
          | None => ret tt
          end
        else ret tt) ;;
       changeView navigateTo ;;
       logger_info "stopped streaming") ;;
    setOpen false.
End Render.

(** [onClick={() => handleMenuClick(navigateTo, clickable)}] on the entry
    [m], with the handler of the current render. *)
Definition click (m : MenuItem) : M World unit :=
  fun w =>
    handleMenuClick (currentView w) (anamClient w)
                    (navigateTo m) (clickable m) w.

(** Completion, final state and trace of a handler run. *)
Definition completion_of {A} (m : M World A) (w : World) : Completion A :=
  fst (fst (m w)).
Definition exec {A} (m : M World A) (w : World) : World := snd (fst (m w)).
Definition trace_of {A} (m : M World A) (w : World) : list Event :=
  snd (m w).

(** The calls that change what the user sees: view change, page
    navigation, opening or closing of the sidebar. *)
Definition is_ui_transition (e : Event) : bool :=
  match e with
  | ChangeView _ | Router_push _ | SetOpen _ => true
  | _ => false
  end.

(** The same world, with a client whose [stopStreaming] promise settles
    as [r]. *)
Definition with_stop_result (r : Settled) (w : World) : World :=
  {| open := open w; currentView := currentView w; location := location w;
     anamClient :=
       option_map (fun c => mkClient (listeners c) r
                     (streamToVideoAndAudioElements_result c))
                  (anamClient w) |}.

End NavigationSidebar.


(** ** AvatarContainer *)
Module AvatarContainer.

(** A DOM media element, as far as the component looks at it. *)
Record Element : Type := mkElement { id : string }.

(** [<video id="video" ref={videoRef} ... />] and
    [<audio id="audio" ref={audioRef} ... />] of the component's render. *)
Definition video_element : Element := {| id := "video" |}.
Definition audio_element : Element := {| id := "audio" |}.

(** An active interval of the browser: its id, its period, and the
    component instance whose [setSecondsElapsed] its callback closes
    over. *)
Record Timer : Type := mkTimer {
  timer_id : nat;
  delay_ms : Z;
  timer_owner : nat
}.

(** [secondsElapsed] is a JavaScript number that only ever holds an integer
    count of seconds; it is modelled as an integer, on which the addition of
    1 is the one the code performs for every count below 2^53. *)
Record World : Type := mkWorld {
  (* the component instance and its [useState] cells *)
  self : nat;
  loading : bool;
  loadingText : string;
  secondsElapsed : Z;
  (* refs *)
  videoRef : option Element;
  audioRef : option Element;
  (* [useAnamContext()] *)
  anamClient : option AnamClient;
  isClientInitialized : bool;
  (* [startStreaming] suspended at its [await], with the way the awaited
     promise is going to settle *)
  awaiting_stream : option Settled;
  (* [const interval] kept by the cleanup of the second effect *)
  interval : option nat;
  (* the browser's active intervals *)
  timers : list Timer
}.

Definition set_loading (b : bool) (w : World) : World :=
  mkWorld (self w) b (loadingText w) (secondsElapsed w) (videoRef w)
          (audioRef w) (anamClient w) (isClientInitialized w)
          (awaiting_stream w) (interval w) (timers w).

Definition set_loadingText (s : string) (w : World) : World :=
  mkWorld (self w) (loading w) s (secondsElapsed w) (videoRef w)
          (audioRef w) (anamClient w) (isClientInitialized w)
          (awaiting_stream w) (interval w) (timers w).

Definition set_secondsElapsed (n : Z) (w : World) : World :=
  mkWorld (self w) (loading w) (loadingText w) n (videoRef w)
          (audioRef w) (anamClient w) (isClientInitialized w)
          (awaiting_stream w) (interval w) (timers w).

Definition set_anamClient (c : option AnamClient) (w : World) : World :=
  mkWorld (self w) (loading w) (loadingText w) (secondsElapsed w)
          (videoRef w) (audioRef w) c (isClientInitialized w)
          (awaiting_stream w) (interval w) (timers w).

Definition set_awaiting_stream (p : option Settled) (w : World) : World :=
  mkWorld (self w) (loading w) (loadingText w) (secondsElapsed w)
          (videoRef w) (audioRef w) (anamClient w) (isClientInitialized w)
          p (interval w) (timers w).

Definition set_interval (i : option nat) (w : World) : World :=
  mkWorld (self w) (loading w) (loadingText w) (secondsElapsed w)
          (videoRef w) (audioRef w) (anamClient w) (isClientInitialized w)
          (awaiting_stream w) i (timers w).

Definition set_timers (l : list Timer) (w : World) : World :=
  mkWorld (self w) (loading w) (loadingText w) (secondsElapsed w)
          (videoRef w) (audioRef w) (anamClient w) (isClientInitialized w)
          (awaiting_stream w) (interval w) l.

(** *** State setters *)

Definition setLoading (b : bool) : M World unit := modify (set_loading b).

Definition setLoadingText (s : string) : M World unit :=
  modify (set_loadingText s).

(** The functional form [setSecondsElapsed((prev) => ...)]. *)
Definition setSecondsElapsed (f : Z -> Z) : M World unit :=
  modify (fun w => set_secondsElapsed (f (secondsElapsed w)) w).

(** *** The three lifecycle callbacks *)

Definition onConnectionEstablished_cb : M World unit :=
  setLoadingText "Connected to a Persona.".

Definition onVideoStartedStreaming_cb : M World unit :=
  setLoading false.

Definition onConnectionClosed_cb : M World unit :=
  setLoading false.

Definition run_handler (h : Handler) : M World unit :=
  match h with
  | onConnectionEstablished => onConnectionEstablished_cb
  | onVideoStartedStreaming => onVideoStartedStreaming_cb
  | onConnectionClosed => onConnectionClosed_cb
  end.

(** The callback references this instance hands to the client. *)
Definition callback (inst : nat) (h : Handler) : Callback :=
  {| owner := inst; handler := h |}.

(** *** Calls on the collaborators *)

Definition client_addListener (ev : AnamEvent) (cb : Callback)
  : M World unit :=
  emit (Call_addListener ev cb) ;;
  modify (fun w =>
            set_anamClient (option_map (addListener ev cb) (anamClient w)) w).

Definition client_removeListener (ev : AnamEvent) (cb : Callback)
  : M World unit :=
  emit (Call_removeListener ev cb) ;;
  modify (fun w =>
            set_anamClient
              (option_map (removeListener ev cb) (anamClient w)) w).

(** [client.streamToVideoAndAudioElements(v, a)]: the call is made now and
    returns a promise. *)
Definition client_streamToVideoAndAudioElements
           (client : AnamClient) (v a : string) : M World Settled :=
  emit (Call_streamToVideoAndAudioElements v a) ;;
  ret (streamToVideoAndAudioElements_result client).

Definition errorHandler (e : Error) : M World unit :=
  emit (ErrorHandler e).

(** An id that no active interval has. *)
Definition fresh_timer_id (l : list Timer) : nat :=
  S (list_max (map timer_id l)).

(** [setInterval(() => setSecondsElapsed((prev) => prev + 1), delay)] *)
Definition setInterval (delay : Z) : M World nat :=
  emit (Call_setInterval delay) ;;
  i <- read (fun w => fresh_timer_id (timers w)) ;;
  modify (fun w =>
            set_timers (timers w ++
                        [{| timer_id := i; delay_ms := delay;
                            timer_owner := self w |}]) w) ;;
  ret i.

Definition clearInterval (i : nat) : M World unit :=
  emit (Call_clearInterval i) ;;
  modify (fun w =>
            set_timers
              (filter (fun t => negb (Nat.eqb (timer_id t) i)) (timers w))
              w).

(** *** First effect: listeners and streaming *)

(** [startStreaming] up to its [await]: everything here runs inside the
    effect itself. *)
Definition startStreaming : M World unit :=
  w <- read (fun w => w) ;;
  match isClientInitialized w, anamClient w, videoRef w, audioRef w with
  | true, Some client, Some video, Some audio =>
      try_catch
        (client_addListener CONNECTION_ESTABLISHED
           (callback (self w) onConnectionEstablished) ;;
         client_addListener VIDEO_PLAY_STARTED
           (callback (self w) onVideoStartedStreaming) ;;
         client_addListener CONNECTION_CLOSED
           (callback (self w) onConnectionClosed) ;;
         p <- client_streamToVideoAndAudioElements client
                (id video) (id audio) ;;
         modify (set_awaiting_stream (Some p)))
        (fun error => errorHandler error)
  | _, _, _, _ => ret tt
  end.

(** [startStreaming] from its [await] on: it runs when the promise of the
    streaming call settles. *)
Definition startStreaming_resume : M World unit :=
  w <- read (fun w => w) ;;
  match awaiting_stream w with
  | Some s =>
      modify (set_awaiting_stream None) ;;
      try_catch (await (Pending s)) (fun error => errorHandler error)
  | None => ret tt
  end.

(** Cleanup of the first effect. *)
Definition streaming_cleanup : M World unit :=
  w <- read (fun w => w) ;;
  match anamClient w with
  | Some _ =>
      client_removeListener CONNECTION_ESTABLISHED
        (callback (self w) onConnectionEstablished) ;;
      client_removeListener VIDEO_PLAY_STARTED
        (callback (self w) onVideoStartedStreaming) ;;
      client_removeListener CONNECTION_CLOSED
        (callback (self w) onConnectionClosed)
  | None => ret tt
  end.

(** *** Second effect: the elapsed-seconds interval *)

Definition interval_effect : M World unit :=
  i <- setInterval 1000 ;;
  modify (set_interval (Some i)).

Definition interval_cleanup : M World unit :=
  w <- read (fun w => w) ;;
  match interval w with
  | Some i => clearInterval i
  | None => ret tt
  end.

(** *** Lifecycle *)

(** Mount of a new instance [inst]: the [useState] cells take their
    initial values, the rendered media elements are attached to the refs,
    then the effects run in the order they are declared. *)
Definition mount (inst : nat) : M World unit :=
  modify (fun w =>
            mkWorld inst true "Connecting..." 0
                    (Some video_element) (Some audio_element)
                    (anamClient w) (isClientInitialized w)
                    None None (timers w)) ;;
  startStreaming ;;
  interval_effect.

Definition unmount : M World unit :=
  streaming_cleanup ;;
  interval_cleanup.

(** Modelled from the spec: [DemoControls], the child component that is
    given [secondsElapsed] and [setSecondsElapsed], is not among the
    sources.  The spec's data model says of the counter: reset never
    occurs, increments every second while mounted.  The child is therefore
    modelled as a reader of the counter that never calls the setter. *)
Definition DemoControls (seconds : Z)
           (setter : (Z -> Z) -> M World unit) : M World unit :=
  ret tt.

(** *** What can happen to a panel between mount and unmount *)

(** The browser fires interval [i], if it is active. *)
Definition fire_timer (i : nat) : M World unit :=
  w <- read (fun w => w) ;;
  match find (fun t => Nat.eqb (timer_id t) i) (timers w) with
  | Some t =>
      if Nat.eqb (timer_owner t) (self w)
      then setSecondsElapsed (fun prev => (prev + 1)%Z)
      else ret tt
  | None => ret tt
  end.

(** The client calls the listeners registered for [ev], in registration
    order; a callback of another instance does not touch this one. *)
Fixpoint invoke_listeners (inst : nat) (ev : AnamEvent) (l : list Listener)
  : M World unit :=
  match l with
  | [] => ret tt
  | (ev', cb) :: l' =>
      (if AnamEvent_eqb ev ev' && Nat.eqb (owner cb) inst
       then run_handler (handler cb) else ret tt) ;;
      invoke_listeners inst ev l'
  end.

Definition client_emits (ev : AnamEvent) : M World unit :=
  w <- read (fun w => w) ;;
  match anamClient w with
  | Some client => invoke_listeners (self w) ev (listeners client)
  | None => ret tt
  end.

Inductive Action : Type :=
| Tick (i : nat)
| ClientEmits (ev : AnamEvent)
| StreamSettles
| ChildRenders.

Definition step (a : Action) : M World unit :=
  match a with
  | Tick i => fire_timer i
  | ClientEmits ev => client_emits ev
  | StreamSettles => startStreaming_resume
  | ChildRenders =>
      w <- read (fun w => w) ;;
      DemoControls (secondsElapsed w) setSecondsElapsed
  end.

Fixpoint run (l : list Action) : M World unit :=
  match l with
  | [] => ret tt
  | a :: l' => step a ;; run l'
  end.

(** State reached and trace produced by a program. *)
Definition exec {A} (m : M World A) (w : World) : World := snd (fst (m w)).
Definition trace_of {A} (m : M World A) (w : World) : list Event :=
  snd (m w).

(** The three registrations of instance [inst], in the order the effect
    makes them. *)
Definition registrations (inst : nat) : list Listener :=
  [ (CONNECTION_ESTABLISHED, callback inst onConnectionEstablished);
    (VIDEO_PLAY_STARTED, callback inst onVideoStartedStreaming);
    (CONNECTION_CLOSED, callback inst onConnectionClosed) ].

Definition no_listener_of (inst : nat) (l : list Listener) : bool :=
  forallb (fun x => negb (Nat.eqb (owner (snd x)) inst)) l.

Definition no_timer_of (inst : nat) (l : list Timer) : bool :=
  forallb (fun t => negb (Nat.eqb (timer_owner t) inst)) l.

(** [inst] is a new instance for [w]: none of the client's listeners and
    none of the active intervals belongs to it. *)
Definition fresh_instance (inst : nat) (w : World) : bool :=
  match anamClient w with
  | Some c => no_listener_of inst (listeners c)
  | None => true
  end
  && no_timer_of inst (timers w).

(** The listeners that the calls of a trace add, and those its calls ask
    to remove. *)
Definition added_by (t : list Event) : list Listener :=
  flat_map (fun e => match e with
                     | Call_addListener ev cb => [(ev, cb)]
                     | _ => []
                     end) t.

Definition removal_calls (t : list Event) : list Listener :=
  flat_map (fun e => match e with
                     | Call_removeListener ev cb => [(ev, cb)]
                     | _ => []
                     end) t.

(** Whether the client emitted [ev] in the course of [l]. *)
Definition emitted (ev : AnamEvent) (l : list Action) : bool :=
  existsb (fun a => match a with
                    | ClientEmits ev' => AnamEvent_eqb ev ev'
                    | _ => false
                    end) l.

(** Successive lives of the panel: each is a mount of a new instance,
    whatever happens while it is mounted, and its unmount. *)
Fixpoint remounts (l : list (nat * list Action)) : M World unit :=
  match l with
  | [] => ret tt
  | (inst, acts) :: l' =>
      mount inst ;; run acts ;; unmount ;; remounts l'
  end.

(** What no action between mount and unmount touches: an action changes
    only the [useState] cells and the suspended [startStreaming]. *)
Definition same_frame (w w' : World) : Prop :=
  self w' = self w /\ videoRef w' = videoRef w /\ audioRef w' = audioRef w
  /\ anamClient w' = anamClient w
  /\ isClientInitialized w' = isClientInitialized w
  /\ interval w' = interval w /\ timers w' = timers w.

End AvatarContainer.

(** ** What the components render

    A render is a pure function of the component's state; its result is a
    tree of elements.  Components of the UI library and the icons are
    elements named after the component. *)
Module VDom.

Inductive PropValue : Type :=
| Str (s : string)
| Num (n : Z)
| Flag
| Ref (name : string)
| Fn (name : string).

(** The [onClick] closures of the sidebar, with the values of the render
    they close over. *)
Inductive OnClick : Type :=
| OpenSidebar
| ToggleSidebar (open_r : bool)
| MenuClick (currentView_r : string) (anamClient_r : option AnamClient)
            (navigateTo : string) (clickable : bool).

#[local] Unset Elimination Schemes.
Inductive VNode : Type :=
| TextNode (s : string)
| Elem (tag : string) (key : option string)
       (props : list (string * PropValue)) (onClick : option OnClick)
       (children : list VNode).
#[local] Set Elimination Schemes.

Definition tag_of (n : VNode) : string :=
  match n with
  | TextNode _ => ""
  | Elem t _ _ _ _ => t
  end.

Definition key_of (n : VNode) : option string :=
  match n with
  | TextNode _ => None
  | Elem _ k _ _ _ => k
  end.

Definition onClick_of (n : VNode) : option OnClick :=
  match n with
  | TextNode _ => None
  | Elem _ _ _ h _ => h
  end.

Definition children_of (n : VNode) : list VNode :=
  match n with
  | TextNode _ => []
  | Elem _ _ _ _ c => c
  end.

Fixpoint lookup_prop (name : string) (l : list (string * PropValue))
  : option PropValue :=
  match l with
  | [] => None
  | (k, v) :: l' => if String.eqb k name then Some v else lookup_prop name l'
  end.

Definition prop_of (name : string) (n : VNode) : option PropValue :=
  match n with
  | TextNode _ => None
  | Elem _ _ p _ _ => lookup_prop name p
  end.

Definition className_of (n : VNode) : string :=
  match prop_of "className" n with
  | Some (Str s) => s
  | _ => ""
  end.

(** The class list of a [className]: its tokens between spaces. *)
Fixpoint class_tokens_from (s : string) (cur : string) : list string :=
  match s with
  | EmptyString =>
      match cur with
      | EmptyString => []
      | _ => [cur]
      end
  | String c s' =>
      if Ascii.eqb c " "%char then
        match cur with
        | EmptyString => class_tokens_from s' EmptyString
        | _ => cur :: class_tokens_from s' EmptyString
        end
      else class_tokens_from s' (cur ++ String c EmptyString)%string
  end.

Definition class_tokens (s : string) : list string :=
  class_tokens_from s EmptyString.

Definition has_class (c : string) (n : VNode) : bool :=
  existsb (String.eqb c) (class_tokens (className_of n)).

(** A boolean interpolated in a template literal. *)
Definition template_and (b : bool) (s : string) : string :=
  if b then s else "false".

(** [theme === "dark"] for the [string | undefined] theme. *)
Definition is_dark (theme : option string) : bool :=
  match theme with
  | Some t => String.eqb t "dark"
  | None => false
  end.

End VDom.

(** ** Render of the sidebar *)
Module SidebarView.
Import VDom.
Import NavigationSidebar.

Definition icon_tag (i : Icon) : string :=
  match i with
  | Book => "Book"
  | Clipboard => "Clipboard"
  | Pencil => "Pencil"
  | BarChart => "BarChart"
  | Settings => "Settings"
  | X => "X"
  end.

(** Truthiness of the optional [gap]. *)
Definition gap_set (m : MenuItem) : bool :=
  match gap m with
  | Some b => b
  | None => false
  end.

Definition li_className (open : bool) (currentView : string) (m : MenuItem)
  : string :=
  ("flex rounded-md p-2 cursor-pointer items-center gap-x-4 text-sm "
   ++ (if gap_set m then "mt-9" else "mt-2")
   ++ " "
   ++ (if currentView =? navigateTo m
       then "bg-gray-200 dark:bg-gray-700"
       else if clickable m
            then "hover:bg-gray-100 dark:hover:bg-gray-800"
            else "opacity-50")
   ++ " "
   ++ (if clickable m then "" else "pointer-events-none")
   ++ " "
   ++ (if open then "" else "justify-center"))%string.

Definition menu_li (open : bool) (theme : option string)
           (currentView : string)
           (handleMenuClick : string -> bool -> OnClick) (m : MenuItem)
  : VNode :=
  Elem "li" (Some (title m))
       [("className", Str (li_className open currentView m))]
       (Some (handleMenuClick (navigateTo m) (clickable m)))
       (Elem (icon_tag (icon m)) None
             [("width", Str "20"); ("height", Str "20");
              ("stroke", Str (if is_dark theme then "white" else "black"))]
             None []
        :: (if open
            then [Elem "Text" None
                       [("as", Str "span");
                        ("className",
                         Str "origin-left duration-200 text-gray-900 dark:text-white")]
                       None [TextNode (title m)]]
            else [])).

Definition SidebarContents (open : bool) (theme : option string)
           (currentView : string)
           (handleMenuClick : string -> bool -> OnClick) : VNode :=
  Elem "ul" None [("className", Str "pt-6")] None
       (map (menu_li open theme currentView handleMenuClick) Menus).

Definition panel_className (open : bool) : string :=
  ("fixed top-0 left-0 h-screen p-5 pt-8 z-50 bg-white dark:bg-black transition-all duration-300 border-r border-gray-200 dark:border-gray-500 shadow-lg "
   ++ (if open
       then "w-[20vw] min-w-[200px] max-w-[400px]"
       else "w-0 lg:w-[8vw] xl:w-[6vw] 2xl:w-[4vw] min-w-[50px]")
   ++ " "
   ++ (if open then "block" else "lg:block hidden"))%string.

Definition brand_className (open : bool) : string :=
  ("cursor-pointer duration-500 w-10 h-10 "
   ++ template_and open "rotate-[360deg]")%string.

(** The fragment returned by [NavigationSidebar], for the state [w] and the
    theme of [useTheme()]. *)
Definition render (theme : option string) (w : World) : list VNode :=
  (if negb (open w)
   then [Elem "Box" None
              [("className", Str "lg:hidden fixed top-2 left-2 z-50")]
              None
              [Elem "IconButton" None
                    [("size", Str "4");
                     ("className",
                      Str "p-2 rounded-full bg-black dark:bg-white border border-gray-200 dark:border-gray-700")]
                    (Some OpenSidebar)
                    [Elem "BrainCircuit" None
                          [("stroke",
                            Str (if is_dark theme then "black" else "white"))]
                          None []]]]
   else [])
  ++ [Elem "Box" None
           [("className", Str (panel_className (open w)))]
           None
           [ Elem "Box" None
                  [("className",
                    Str "absolute cursor-pointer -right-4 top-9 w-7 h-7 bg-black dark:bg-white border border-gray-200 dark:border-gray-700 rounded-full")]
                  (Some (ToggleSidebar (open w)))
                  [if open w
                   then Elem "ChevronLeft" None
                             [("stroke",
                               Str (if is_dark theme
                                    then "black" else "white"))]
                             None []
                   else Elem "ChevronRight" None
                             [("stroke",
                               Str (if is_dark theme
                                    then "black" else "white"));
                              ("className", Str "lg:block hidden")]
                             None []];
             Elem "Box" None
                  [("className", Str "flex gap-x-4 items-center mb-6")]
                  None
                  (Elem "BrainCircuit" None
                        [("className", Str (brand_className (open w)));
                         ("stroke",
                          Str (if is_dark theme then "white" else "black"))]
                        None []
                   :: (if open w
                       then [Elem "Heading" None
                                  [("className",
                                    Str "origin-left font-medium text-xl duration-200 text-gray-900 dark:text-white")]
                                  None [TextNode "Teacher"]]
                       else []));
             SidebarContents (open w) theme (currentView w)
                             (MenuClick (currentView w) (anamClient w)) ]].

(** What a click on an element does: its [onClick] closure runs. *)
Definition dispatch (h : OnClick) : M World unit :=
  match h with
  | OpenSidebar => setOpen true
  | ToggleSidebar open_r => setOpen (negb open_r)
  | MenuClick currentView_r anamClient_r navigateTo clickable =>
      handleMenuClick currentView_r anamClient_r navigateTo clickable
  end.

(** The element the user clicks is the one of the current render. *)
Definition click_on (pick : list VNode -> option VNode)
           (theme : option string) : M World unit :=
  fun w =>
    match pick (render theme w) with
    | Some n =>
        match onClick_of n with
        | Some h => dispatch h w
        | None => ret tt w
        end
    | None => ret tt w
    end.

(** The places of the clickable elements in the rendered fragment. *)
Definition the_panel (f : list VNode) : option VNode :=
  match rev f with
  | p :: _ => Some p
  | [] => None
  end.

Definition the_open_button (f : list VNode) : option VNode :=
  match f with
  | [b; _] => nth_error (children_of b) 0
  | _ => None
  end.

Definition the_toggle (f : list VNode) : option VNode :=
  match the_panel f with
  | Some p => nth_error (children_of p) 0
  | None => None
  end.

Definition the_menu (f : list VNode) : list VNode :=
  match the_panel f with
  | Some p =>
      match nth_error (children_of p) 2 with
      | Some ul => children_of ul
      | None => []
      end
  | None => []
  end.

Definition the_menu_item (i : nat) (f : list VNode) : option VNode :=
  nth_error (the_menu f) i.

Definition the_header (f : list VNode) : list VNode :=
  match the_panel f with
  | Some p =>
      match nth_error (children_of p) 1 with
      | Some h => children_of h
      | None => []
      end
  | None => []
  end.

Definition the_brand (f : list VNode) : option VNode :=
  nth_error (the_header f) 0.

Definition the_heading (f : list VNode) : option VNode :=
  nth_error (the_header f) 1.

(** A sequence of clicks on menu entries, each handled by the render that
    follows the previous one. *)
Fixpoint clicks (l : list MenuItem) : M World unit :=
  match l with
  | [] => ret tt
  | m :: l' => click m ;; clicks l'
  end.

End SidebarView.

(** ** Render of the avatar panel *)
Module AvatarView.
Import VDom.
Import AvatarContainer.

Definition render (w : World) : VNode :=
  Elem "Flex" None
       [("direction", Str "column"); ("align", Str "center");
        ("justify", Str "center"); ("mt", Str "2");
        ("className",
         Str "relative lg:min-w-[735px] aspect-square bg-gray-100 rounded-lg border border-gray-300")]
       None
       ((if loading w
         then [Elem "Flex" None [("className", Str "absolute")] None
                    [Elem "Spinner" None
                          [("aria-label", Str "Loading..."); ("size", Str "1")]
                          None [];
                     Elem "label" None
                          [("className",
                            Str "ml-2 text-sm md:text-base lg:text-lg")]
                          None [TextNode (loadingText w)]]]
         else [])
        ++ [Elem "video" None
                 [("id", Str "video"); ("ref", Ref "videoRef");
                  ("autoPlay", Flag); ("playsInline", Flag);
                  ("className",
                   Str "w-full h-full object-cover rounded-lg")]
                 None [];
            Elem "audio" None
                 [("id", Str "audio"); ("ref", Ref "audioRef");
                  ("autoPlay", Flag); ("hidden", Flag)]
                 None [];
            Elem "DemoControls" None
                 [("secondsElapsed", Num (secondsElapsed w));
                  ("audioRef", Ref "audioRef");
                  ("setSecondsElapsed", Fn "setSecondsElapsed")]
                 None [];
            Elem "UserVideoContainer" None [] None []]).

(** The spinner block of a render, if it shows one, and the text of its
    label. *)
Definition spinner_of (n : VNode) : option VNode :=
  find (fun c => String.eqb (tag_of c) "Flex") (children_of n).

Definition spinner_label (n : VNode) : option string :=
  match spinner_of n with
  | Some sp =>
      match nth_error (children_of sp) 1 with
      | Some lbl =>
          match children_of lbl with
          | [TextNode s] => Some s
          | _ => None
          end
      | None => None
      end
  | None => None
  end.

(** The element a ref of the component is attached to. *)
Definition element_of_ref (name : string) (n : VNode) : option VNode :=
  find (fun c => match prop_of "ref" c with
                 | Some (Ref r) => String.eqb r name
                 | _ => false
                 end) (children_of n).

Definition the_demo_controls (n : VNode) : option VNode :=
  find (fun c => String.eqb (tag_of c) "DemoControls") (children_of n).

Definition id_of (n : VNode) : option string :=
  match prop_of "id" n with
  | Some (Str s) => Some s
  | _ => None
  end.

(** Firings of interval [i] among the actions. *)
Definition firings (i : nat) (l : list Action) : nat :=
  length (filter (fun a => match a with
                           | Tick j => Nat.eqb j i
                           | _ => false
                           end) l).

(** None of the client's listeners is a callback of the panel. *)
Definition unregistered (x : World) : Prop :=
  match anamClient x with
  | Some c => no_listener_of (self x) (listeners c) = true
  | None => True
  end.

End AvatarView.

(** ** Order of calls in a trace *)

Lemma Before_here :
  forall a b t, In b t -> Before a b (a :: t).
Proof.
  intros a b t Hin. apply in_split in Hin as (t2 & t3 & ->).
  exists [], t2, t3. reflexivity.
Qed.

Lemma Before_later :
  forall a b x t, Before a b t -> Before a b (x :: t).
Proof.
  intros a b x t (t1 & t2 & t3 & ->). exists (x :: t1), t2, t3. reflexivity.
Qed.

Ltac before :=
  repeat first [ apply Before_here; simpl; tauto | apply Before_later ].

(** ** Properties of the sidebar's click handlers *)
Module SidebarProperties.
Import NavigationSidebar.

Lemma Menus_exit_entry :
  forall m, In m Menus -> title m = "Exit" ->
            navigateTo m = "Initial" /\ clickable m = true.
Proof.
  intros m Hin Ht. simpl in Hin.
  repeat (destruct Hin as [<- | Hin]; [ try discriminate Ht; auto | ]).
  contradiction.
Qed.

Lemma Menus_other_entry :
  forall m, In m Menus -> title m <> "Exit" -> navigateTo m <> "Initial".
Proof.
  intros m Hin Ht. simpl in Hin.
  repeat (destruct Hin as [<- | Hin];
          [ try (exfalso; apply Ht; reflexivity); simpl; discriminate | ]).
  contradiction.
Qed.

Lemma click_exit :
  forall m w,
    navigateTo m = "Initial" -> clickable m = true ->
    click m w =
      (Normal tt,
       {| open := false; currentView := "Demo"; location := "/";
          anamClient := anamClient w |},
       match anamClient w with
       | Some c =>
           [Call_stopStreaming; Promise_settled (stopStreaming_result c)]
           ++ match stopStreaming_result c with
              | Fulfilled => []
              | Rejected e => [Console_error e]
              end
           ++ [Logger_info "stopped streaming"]
       | None => []
       end
       ++ [Router_push "/"; ChangeView "Demo"; SetOpen false;
           SetOpen false]).
Proof.
  intros m w Hn Hc. unfold click. rewrite Hn, Hc.
  destruct w as [o v l [[ls [|e] sr]|]]; reflexivity.
Qed.

Lemma click_view :
  forall m w,
    navigateTo m <> "Initial" -> clickable m = true ->
    click m w =
      (Normal tt,
       {| open := false; currentView := navigateTo m;
          location := location w; anamClient := anamClient w |},
       (if (currentView w =? "Demo") && negb (navigateTo m =? "Demo") then
          match anamClient w with
          | Some c =>
              [Call_stopStreaming; Promise_settled (stopStreaming_result c)]
              ++ match stopStreaming_result c with
                 | Fulfilled => []
                 | Rejected e =>
                     [Logger_error "Failed to stop streaming:" e]
                 end
          | None => []
          end
        else [])
       ++ [ChangeView (navigateTo m); Logger_info "stopped streaming";
           SetOpen false]).
Proof.
  intros m w Hn Hc. unfold click, handleMenuClick. rewrite Hc.
  apply String.eqb_neq in Hn. rewrite Hn.
  destruct w as [o v l a]; cbn [negb currentView anamClient location].
  destruct ((v =? "Demo") && negb (navigateTo m =? "Demo")).
  - destruct a as [[ls [|e] sr]|]; reflexivity.
  - reflexivity.
Qed.

(** C1. A click on the "Exit" entry: when a streaming client exists, its
    [stopStreaming] is called and the handler resumes only once that
    promise has settled, before [router.push("/")] and before
    [changeView("Demo")]; with or without a client, the navigation to "/"
    and the reset of the view to "Demo" both happen, once each and in that
    order, and the handler completes normally. *)
Theorem exit_click_awaits_stop_then_navigates :
  forall m w,
    In m Menus -> title m = "Exit" ->
    let t := trace_of (click m) w in
    completion_of (click m) w = Normal tt
    /\ location (exec (click m) w) = "/"
    /\ currentView (exec (click m) w) = "Demo"
    /\ t = match anamClient w with
           | Some c =>
               [Call_stopStreaming;
                Promise_settled (stopStreaming_result c)]
               ++ match stopStreaming_result c with
                  | Fulfilled => []
                  | Rejected e => [Console_error e]
                  end
               ++ [Logger_info "stopped streaming"]
           | None => []
           end
           ++ [Router_push "/"; ChangeView "Demo"; SetOpen false;
               SetOpen false]
    /\ (forall c, anamClient w = Some c ->
          count is_stopStreaming t = 1
          /\ Before Call_stopStreaming
                    (Promise_settled (stopStreaming_result c)) t
          /\ Before (Promise_settled (stopStreaming_result c))
                    (Router_push "/") t
          /\ Before (Promise_settled (stopStreaming_result c))
                    (ChangeView "Demo") t)
    /\ (anamClient w = None -> count is_stopStreaming t = 0)
    /\ Before (Router_push "/") (ChangeView "Demo") t
    /\ count is_router_push t = 1
    /\ count is_changeView t = 1.
Proof.
  intros m w Hin Ht t. subst t.
  destruct (Menus_exit_entry m Hin Ht) as [Hn Hc].
  unfold completion_of, exec, trace_of. rewrite (click_exit m w Hn Hc).
  cbn [fst snd location currentView].
  repeat (split; [ reflexivity | ]).
  destruct (anamClient w) as [c|].
  - split.
    + intros c' [= <-].
      destruct (stopStreaming_result c); cbn;
        (split; [ reflexivity | ]); repeat split; before.
    + split; [ discriminate | ].
      destruct (stopStreaming_result c); cbn; repeat split; before.
  - split; [ discriminate | ].
    cbn. repeat split; before.
Qed.

Lemma exit_click_awaits_stop_then_navigates_witness :
  let exit := {| title := "Exit"; navigateTo := "Initial"; icon := X;
                 gap := Some true; clickable := true |} in
  let w := {| open := true; currentView := "Demo"; location := "/demo";
              anamClient := Some (mkClient [] (Rejected "offline")
                                           Fulfilled) |} in
  (In exit Menus /\ title exit = "Exit")
  /\ trace_of (click exit) w =
       [Call_stopStreaming; Promise_settled (Rejected "offline");
        Console_error "offline"; Logger_info "stopped streaming";
        Router_push "/"; ChangeView "Demo"; SetOpen false; SetOpen false].
Proof.
  intros exit w.
  assert (Hin : In exit Menus) by (simpl; tauto).
  assert (Ht : title exit = "Exit") by reflexivity.
  split; [ split; assumption | ].
  exact (proj1 (proj2 (proj2 (proj2
           (exit_click_awaits_stop_then_navigates exit w Hin Ht))))).
Defined.

(** C2. A click on an entry whose [clickable] flag is false changes
    nothing: the handler returns at once, the world (sidebar flag, current
    view, page) is the one it started from, and no call at all is made, so
    neither a navigation nor a [stopStreaming]. *)
Theorem non_clickable_click_is_noop :
  forall m w,
    clickable m = false ->
    click m w = (Normal tt, w, [])
    /\ exec (click m) w = w
    /\ count is_router_push (trace_of (click m) w) = 0
    /\ count is_stopStreaming (trace_of (click m) w) = 0
    /\ count is_ui_transition (trace_of (click m) w) = 0.
Proof.
  intros m w Hc.
  assert (H : click m w = (Normal tt, w, [])).
  { unfold click, handleMenuClick. rewrite Hc. reflexivity. }
  unfold exec, trace_of. rewrite H. repeat split.
Qed.

Lemma non_clickable_click_is_noop_witness :
  let vocabulary := {| title := "Vocabulary"; navigateTo := "Vocabulary";
                       icon := Clipboard; gap := None;
                       clickable := false |} in
  let w := {| open := true; currentView := "Demo"; location := "/demo";
              anamClient := Some (mkClient [] Fulfilled Fulfilled) |} in
  clickable vocabulary = false
  /\ click vocabulary w = (Normal tt, w, []).
Proof.
  intros vocabulary w.
  split; [ reflexivity | ].
  exact (proj1 (non_clickable_click_is_noop vocabulary w eq_refl)).
Defined.

(** C3. A click on a clickable entry whose target is not "Initial": when
    the current view is "Demo", the target is not "Demo" and a client
    exists, [stopStreaming] is called exactly once, and both the call and
    the settlement of its promise come before the view change; in every
    other such click [stopStreaming] is not called. *)
Theorem view_switch_stops_streaming_once :
  forall m w,
    clickable m = true -> navigateTo m <> "Initial" ->
    let t := trace_of (click m) w in
    (forall c,
        currentView w = "Demo" -> navigateTo m <> "Demo" ->
        anamClient w = Some c ->
        count is_stopStreaming t = 1
        /\ Before Call_stopStreaming (ChangeView (navigateTo m)) t
        /\ Before (Promise_settled (stopStreaming_result c))
                  (ChangeView (navigateTo m)) t)
    /\ (currentView w <> "Demo" \/ navigateTo m = "Demo"
        \/ anamClient w = None ->
        count is_stopStreaming t = 0)
    /\ count is_changeView t = 1.
Proof.
  intros m w Hc Hn t. subst t.
  unfold trace_of. rewrite (click_view m w Hn Hc). cbn [snd].
  split; [ | split ].
  - intros c Hv Hd Ha. rewrite Hv, Ha.
    apply String.eqb_neq in Hd. rewrite Hd. rewrite String.eqb_refl.
    cbn [andb negb].
    destruct (stopStreaming_result c); cbn;
      (split; [ reflexivity | ]); split; before.
  - intros [Hv | [Hd | Ha]].
    + apply String.eqb_neq in Hv. rewrite Hv. reflexivity.
    + rewrite Hd. rewrite String.eqb_refl, andb_false_r. reflexivity.
    + rewrite Ha.
      destruct ((currentView w =? "Demo") && negb (navigateTo m =? "Demo"));
        reflexivity.
  - destruct ((currentView w =? "Demo") && negb (navigateTo m =? "Demo"));
      [ | reflexivity ].
    destruct (anamClient w) as [c|]; [ | reflexivity ].
    destruct (stopStreaming_result c); reflexivity.
Qed.

Lemma view_switch_stops_streaming_once_witness :
  let settings := {| title := "Settings"; navigateTo := "Settings";
                     icon := Settings; gap := Some true;
                     clickable := true |} in
  let c := mkClient [] Fulfilled Fulfilled in
  let w := {| open := true; currentView := "Demo"; location := "/demo";
              anamClient := Some c |} in
  (clickable settings = true /\ navigateTo settings <> "Initial")
  /\ count is_stopStreaming (trace_of (click settings) w) = 1.
Proof.
  intros settings c w.
  assert (Hc : clickable settings = true) by reflexivity.
  assert (Hn : navigateTo settings <> "Initial") by (simpl; discriminate).
  split; [ split; assumption | ].
  refine (proj1 (proj1 (view_switch_stops_streaming_once settings w Hc Hn)
                       c eq_refl _ eq_refl)).
  simpl; discriminate.
Defined.

(** C4. Whenever a click calls [stopStreaming] and that promise rejects
    with [e], on the view-switch path as on the Exit path: the handler
    still completes normally (nothing is thrown out of it); right after the
    rejection, [e] is handed to the handler given to [catch], which is
    [logger.error] on the view-switch path and [console.error] on the Exit
    path; and the view change, page navigation and closing of the sidebar
    are the same calls, in the same order and with the same final state,
    as when the promise is fulfilled. *)
Theorem stop_rejection_is_caught_and_swallowed :
  forall m w c e,
    clickable m = true ->
    anamClient w = Some c ->
    stopStreaming_result c = Rejected e ->
    In Call_stopStreaming (trace_of (click m) w) ->
    let t := trace_of (click m) w in
    let w_ok := with_stop_result Fulfilled w in
    completion_of (click m) w = Normal tt
    /\ (exists t1 t2 report,
           t = t1 ++ Promise_settled (Rejected e) :: report :: t2
           /\ report = (if navigateTo m =? "Initial"
                        then Console_error e
                        else Logger_error "Failed to stop streaming:" e))
    /\ completion_of (click m) w_ok = Normal tt
    /\ filter is_ui_transition t
       = filter is_ui_transition (trace_of (click m) w_ok)
    /\ open (exec (click m) w) = open (exec (click m) w_ok)
    /\ currentView (exec (click m) w) = currentView (exec (click m) w_ok)
    /\ location (exec (click m) w) = location (exec (click m) w_ok).
Proof.
  intros m w c e Hc Ha Hr Hcall t w_ok. subst t w_ok.
  unfold completion_of, exec, trace_of in *.
  destruct (String.eqb_spec (navigateTo m) "Initial") as [Hn | Hn].
  - rewrite (click_exit m w Hn Hc).
    rewrite (click_exit m (with_stop_result Fulfilled w) Hn Hc).
    cbn [fst snd open currentView location anamClient with_stop_result].
    rewrite Ha, Hr. cbn.
    split; [ reflexivity | ]. split.
    + exists [Call_stopStreaming],
             [Logger_info "stopped streaming"; Router_push "/";
              ChangeView "Demo"; SetOpen false; SetOpen false],
             (Console_error e).
      split; reflexivity.
    + repeat split.
  - rewrite (click_view m w Hn Hc) in *.
    rewrite (click_view m (with_stop_result Fulfilled w) Hn Hc).
    cbn [fst snd open currentView location anamClient with_stop_result]
      in *.
    rewrite Ha, Hr in *.
    destruct ((currentView w =? "Demo") && negb (navigateTo m =? "Demo")).
    + cbn. split; [ reflexivity | ]. split.
      * exists [Call_stopStreaming],
               [ChangeView (navigateTo m); Logger_info "stopped streaming";
                SetOpen false],
               (Logger_error "Failed to stop streaming:" e).
        split; reflexivity.
      * repeat split.
    + exfalso. cbn in Hcall.
      destruct Hcall as [H | [H | [H | []]]]; discriminate H.
Qed.

Lemma stop_rejection_is_caught_and_swallowed_witness :
  let settings := {| title := "Settings"; navigateTo := "Settings";
                     icon := Settings; gap := Some true;
                     clickable := true |} in
  let c := mkClient [] (Rejected "offline") Fulfilled in
  let w := {| open := true; currentView := "Demo"; location := "/demo";
              anamClient := Some c |} in
  (clickable settings = true /\ anamClient w = Some c
   /\ stopStreaming_result c = Rejected "offline"
   /\ In Call_stopStreaming (trace_of (click settings) w))
  /\ completion_of (click settings) w = Normal tt.
Proof.
  intros settings c w.
  assert (Hcall : In Call_stopStreaming (trace_of (click settings) w))
    by (left; reflexivity).
  split; [ repeat split; assumption | ].
  exact (proj1 (stop_rejection_is_caught_and_swallowed
                  settings w c "offline" eq_refl eq_refl eq_refl Hcall)).
Defined.

(** C10. A click on a clickable entry other than "Exit" (in [Menus] these
    are the entries whose target is not "Initial") sets the current view to
    the entry's target, never calls [router.push], so the page stays where
    it is, and leaves the sidebar closed; the Exit path, too, ends by
    closing the sidebar. *)
Theorem clickable_click_sets_view_and_closes_sidebar :
  forall m w,
    clickable m = true ->
    let t := trace_of (click m) w in
    let w' := exec (click m) w in
    (navigateTo m <> "Initial" ->
       currentView w' = navigateTo m
       /\ In (ChangeView (navigateTo m)) t
       /\ count is_router_push t = 0
       /\ location w' = location w
       /\ open w' = false
       /\ last t (SetOpen true) = SetOpen false)
    /\ (navigateTo m = "Initial" ->
          open w' = false /\ last t (SetOpen true) = SetOpen false)
    /\ (In m Menus -> (title m = "Exit" <-> navigateTo m = "Initial")).
Proof.
  intros m w Hc t w'. subst t w'. unfold exec, trace_of.
  split; [ | split ].
  - intros Hn. rewrite (click_view m w Hn Hc).
    cbn [fst snd open currentView location].
    destruct ((currentView w =? "Demo") && negb (navigateTo m =? "Demo"));
      [ destruct (anamClient w) as [c|];
        [ destruct (stopStreaming_result c) | ] | ];
      cbn; repeat split; tauto.
  - intros Hn. rewrite (click_exit m w Hn Hc).
    cbn [fst snd open].
    destruct (anamClient w) as [c|];
      [ destruct (stopStreaming_result c) | ]; split; reflexivity.
  - intros Hin. split.
    + intros Ht. apply (Menus_exit_entry m Hin Ht).
    + intros Hn.
      destruct (string_dec (title m) "Exit") as [Ht | Ht]; [ exact Ht | ].
      destruct (Menus_other_entry m Hin Ht Hn).
Qed.

Lemma clickable_click_sets_view_and_closes_sidebar_witness :
  let settings := {| title := "Settings"; navigateTo := "Settings";
                     icon := Settings; gap := Some true;
                     clickable := true |} in
  let w := {| open := true; currentView := "Demo"; location := "/demo";
              anamClient := None |} in
  clickable settings = true
  /\ currentView (exec (click settings) w) = "Settings"
  /\ location (exec (click settings) w) = "/demo"
  /\ open (exec (click settings) w) = false.
Proof.
  intros settings w.
  split; [ reflexivity | ].
  assert (Hn : navigateTo settings <> "Initial") by (simpl; discriminate).
  destruct (proj1 (clickable_click_sets_view_and_closes_sidebar
                     settings w eq_refl) Hn)
    as (Hv & _ & _ & Hl & Ho & _).
  exact (conj Hv (conj Hl Ho)).
Defined.

End SidebarProperties.

(** ** Properties of the avatar panel *)
Module AvatarProperties.
Import AvatarContainer.

(** *** The monad on runs that complete normally *)

Lemma bind_normal :
  forall {A B} (m : M World A) (k : A -> M World B) w a w1 t1,
    m w = (Normal a, w1, t1) ->
    bind m k w = (fst (fst (k a w1)), snd (fst (k a w1)), t1 ++ snd (k a w1)).
Proof.
  intros A B m k w a w1 t1 H. unfold bind. rewrite H.
  destruct (k a w1) as [[c w2] t2]. reflexivity.
Qed.

Lemma exec_bind :
  forall {A B} (m : M World A) (k : A -> M World B) w a w1 t1,
    m w = (Normal a, w1, t1) ->
    exec (bind m k) w = exec (k a) w1.
Proof.
  intros. unfold exec. erewrite bind_normal by eassumption. reflexivity.
Qed.

(** *** Frame of the steps *)

Lemma same_frame_refl : forall w, same_frame w w.
Proof. intros w. repeat split. Qed.

Lemma same_frame_trans :
  forall a b c, same_frame a b -> same_frame b c -> same_frame a c.
Proof.
  unfold same_frame. intros a b c H1 H2.
  destruct H1 as (?&?&?&?&?&?&?), H2 as (?&?&?&?&?&?&?).
  repeat split; congruence.
Qed.

Lemma invoke_listeners_spec :
  forall inst ev l w,
    exists w', invoke_listeners inst ev l w = (Normal tt, w', [])
               /\ same_frame w w'
               /\ secondsElapsed w' = secondsElapsed w
               /\ awaiting_stream w' = awaiting_stream w
               /\ (loading w = false -> loading w' = false).
Proof.
  intros inst ev l. induction l as [| [ev' cb] l IH]; intros w.
  - exists w. repeat split; auto.
  - cbn [invoke_listeners].
    destruct (AnamEvent_eqb ev ev' && Nat.eqb (owner cb) inst).
    + destruct (handler cb); cbn [run_handler].
      * destruct (IH (set_loadingText "Connected to a Persona." w))
          as (w' & E & F & S & Aw & L).
        exists w'. split.
        { unfold bind, onConnectionEstablished_cb, setLoadingText, modify.
          rewrite E. reflexivity. }
        split; [ | split; [ | split ] ]; auto.
      * destruct (IH (set_loading false w)) as (w' & E & F & S & Aw & L).
        exists w'. split.
        { unfold bind, onVideoStartedStreaming_cb, setLoading, modify.
          rewrite E. reflexivity. }
        split; [ | split; [ | split ] ]; auto.
      * destruct (IH (set_loading false w)) as (w' & E & F & S & Aw & L).
        exists w'. split.
        { unfold bind, onConnectionClosed_cb, setLoading, modify.
          rewrite E. reflexivity. }
        split; [ | split; [ | split ] ]; auto.
    + destruct (IH w) as (w' & E & F & S & Aw & L).
      exists w'. split.
      { unfold bind, ret. rewrite E. reflexivity. }
      auto.
Qed.

Lemma fire_timer_own :
  forall w i t,
    find (fun t => Nat.eqb (timer_id t) i) (timers w) = Some t ->
    timer_owner t = self w ->
    fire_timer i w
    = (Normal tt, set_secondsElapsed (secondsElapsed w + 1) w, []).
Proof.
  intros w i t Hf Ho. unfold fire_timer, bind, read. rewrite Hf, Ho.
  rewrite Nat.eqb_refl. reflexivity.
Qed.

Lemma fire_timer_inactive :
  forall w i,
    find (fun t => Nat.eqb (timer_id t) i) (timers w) = None ->
    fire_timer i w = (Normal tt, w, []).
Proof.
  intros w i Hf. unfold fire_timer, bind, read. rewrite Hf. reflexivity.
Qed.

Lemma fire_timer_foreign :
  forall w i,
    no_timer_of (self w) (timers w) = true ->
    fire_timer i w = (Normal tt, w, []).
Proof.
  intros w i Hno. unfold fire_timer, bind, read.
  destruct (find _ (timers w)) as [t|] eqn:Hf; [ | reflexivity ].
  apply find_some in Hf as [Hin _].
  unfold no_timer_of in Hno. rewrite forallb_forall in Hno.
  specialize (Hno t Hin). apply negb_true_iff in Hno. rewrite Hno.
  reflexivity.
Qed.

Lemma fire_timer_spec :
  forall w i,
    exists w', fire_timer i w = (Normal tt, w', [])
               /\ same_frame w w'
               /\ loading w' = loading w
               /\ loadingText w' = loadingText w
               /\ awaiting_stream w' = awaiting_stream w
               /\ (secondsElapsed w' = secondsElapsed w
                   \/ secondsElapsed w' = secondsElapsed w + 1)%Z.
Proof.
  intros w i. unfold fire_timer, bind, read.
  destruct (find _ (timers w)) as [t|].
  - destruct (Nat.eqb (timer_owner t) (self w)).
    + exists (set_secondsElapsed (secondsElapsed w + 1) w).
      repeat split. right. reflexivity.
    + exists w. repeat split. left. reflexivity.
  - exists w. repeat split. left. reflexivity.
Qed.

Lemma client_emits_spec :
  forall ev w,
    exists w', client_emits ev w = (Normal tt, w', [])
               /\ same_frame w w'
               /\ secondsElapsed w' = secondsElapsed w
               /\ awaiting_stream w' = awaiting_stream w
               /\ (loading w = false -> loading w' = false).
Proof.
  intros ev w. unfold client_emits, bind, read.
  destruct (anamClient w) as [c|].
  - destruct (invoke_listeners_spec (self w) ev (listeners c) w)
      as (w' & E & H).
    exists w'. rewrite E. split; [ reflexivity | exact H ].
  - exists w. repeat split; auto.
Qed.

Lemma startStreaming_resume_spec :
  forall w,
    exists w' t, startStreaming_resume w = (Normal tt, w', t)
                 /\ same_frame w w'
                 /\ loading w' = loading w
                 /\ loadingText w' = loadingText w
                 /\ secondsElapsed w' = secondsElapsed w.
Proof.
  intros w. unfold startStreaming_resume, bind, read.
  destruct (awaiting_stream w) as [[|e]|].
  - eexists _, _. split; [ reflexivity | repeat split ].
  - eexists _, _. split; [ reflexivity | repeat split ].
  - exists w, []. repeat split.
Qed.

(** Every action completes normally, stays within the frame, never sets the
    loading flag back to true and leaves the counter where it is or one
    higher. *)
Lemma step_spec :
  forall a w,
    exists w' t, step a w = (Normal tt, w', t)
                 /\ same_frame w w'
                 /\ (loading w = false -> loading w' = false)
                 /\ (secondsElapsed w' = secondsElapsed w
                     \/ secondsElapsed w' = secondsElapsed w + 1)%Z.
Proof.
  intros [i | ev | | ] w; cbn [step].
  - destruct (fire_timer_spec w i) as (w' & E & F & L & _ & _ & S).
    exists w', []. repeat split; auto; try apply F. congruence.
  - destruct (client_emits_spec ev w) as (w' & E & F & S & _ & L).
    exists w', []. repeat split; auto; apply F.
  - destruct (startStreaming_resume_spec w) as (w' & t & E & F & L & _ & S).
    exists w', t. repeat split; auto; try apply F. congruence.
  - exists w, []. repeat split; auto.
Qed.

Lemma run_spec :
  forall l w,
    exists w' t, run l w = (Normal tt, w', t)
                 /\ same_frame w w'
                 /\ (loading w = false -> loading w' = false)
                 /\ (secondsElapsed w <= secondsElapsed w')%Z.
Proof.
  induction l as [| a l IH]; intros w.
  - exists w, []. repeat split; auto. lia.
  - destruct (step_spec a w) as (w1 & t1 & E1 & F1 & L1 & S1).
    destruct (IH w1) as (w2 & t2 & E2 & F2 & L2 & S2).
    exists w2, (t1 ++ t2). split.
    + cbn [run]. unfold bind. rewrite E1, E2. reflexivity.
    + split; [ eapply same_frame_trans; eassumption | ].
      split; [ auto | lia ].
Qed.

Lemma exec_run_cons :
  forall a l w, exec (run (a :: l)) w = exec (run l) (exec (step a) w).
Proof.
  intros a l w. destruct (step_spec a w) as (w1 & t1 & E1 & _).
  cbn [run]. rewrite (exec_bind _ _ _ _ _ _ E1).
  unfold exec at 3. rewrite E1. reflexivity.
Qed.

Lemma exec_run_app :
  forall l1 l2 w, exec (run (l1 ++ l2)) w = exec (run l2) (exec (run l1) w).
Proof.
  induction l1 as [| a l1 IH]; intros l2 w.
  - reflexivity.
  - cbn [app]. rewrite !exec_run_cons. apply IH.
Qed.

(** *** Mount *)

Lemma mount_spec :
  forall inst w,
    let registered :=
      match isClientInitialized w, anamClient w with
      | true, Some _ => true
      | _, _ => false
      end in
    mount inst w
    = (Normal tt,
       mkWorld inst true "Connecting..." 0
               (Some video_element) (Some audio_element)
               (if registered
                then option_map
                       (fun c => set_listeners
                                   (listeners c ++ registrations inst) c)
                       (anamClient w)
                else anamClient w)
               (isClientInitialized w)
               (if registered
                then option_map streamToVideoAndAudioElements_result
                                (anamClient w)
                else None)
               (Some (fresh_timer_id (timers w)))
               (timers w ++ [mkTimer (fresh_timer_id (timers w)) 1000 inst]),
       (if registered
        then map (fun l => Call_addListener (fst l) (snd l))
                 (registrations inst)
             ++ [Call_streamToVideoAndAudioElements "video" "audio"]
        else [])
       ++ [Call_setInterval 1000]).
Proof.
  intros inst w registered. subst registered.
  destruct w as [s l lt se v a [c|] [|] aw i tm]; try reflexivity.
  cbn -[fresh_timer_id]. unfold set_anamClient, set_listeners, addListener.
  cbn -[fresh_timer_id]. rewrite <- !app_assoc. reflexivity.
Qed.

(** *** Lists of listeners and of timers *)

Lemma Listener_eqb_owner :
  forall x y, Listener_eqb x y = true -> owner (snd x) = owner (snd y).
Proof.
  intros x y H. unfold Listener_eqb, Callback_eqb in H.
  apply andb_true_iff in H as [_ H]. apply andb_true_iff in H as [H _].
  apply Nat.eqb_eq in H. exact H.
Qed.

Lemma remove_first_foreign :
  forall inst x pre l,
    no_listener_of inst pre = true -> owner (snd x) = inst ->
    remove_first x (pre ++ l) = pre ++ remove_first x l.
Proof.
  intros inst x pre l Hno Hx. induction pre as [| y pre IH].
  - reflexivity.
  - cbn [no_listener_of forallb] in Hno.
    apply andb_true_iff in Hno as [Hy Hno].
    cbn [app remove_first].
    destruct (Listener_eqb x y) eqn:E.
    + apply Listener_eqb_owner in E. rewrite Hx in E.
      apply negb_true_iff, Nat.eqb_neq in Hy. congruence.
    + rewrite (IH Hno). reflexivity.
Qed.

Lemma Listener_eqb_refl : forall x, Listener_eqb x x = true.
Proof.
  intros [ev [o h]]. unfold Listener_eqb, Callback_eqb. cbn [fst snd owner handler].
  rewrite Nat.eqb_refl.
  destruct ev, h; cbn; try reflexivity; rewrite String.eqb_refl; reflexivity.
Qed.

Lemma remove_first_head : forall x l, remove_first x (x :: l) = l.
Proof.
  intros x l. cbn [remove_first]. rewrite Listener_eqb_refl. reflexivity.
Qed.

Lemma remove_registrations :
  forall inst pre,
    no_listener_of inst pre = true ->
    remove_first (CONNECTION_CLOSED, callback inst onConnectionClosed)
      (remove_first (VIDEO_PLAY_STARTED, callback inst onVideoStartedStreaming)
         (remove_first
            (CONNECTION_ESTABLISHED, callback inst onConnectionEstablished)
            (pre ++ registrations inst)))
    = pre.
Proof.
  intros inst pre Hno. unfold registrations.
  rewrite remove_first_foreign with (inst := inst)
    by (assumption || reflexivity).
  rewrite remove_first_head.
  rewrite remove_first_foreign with (inst := inst)
    by (assumption || reflexivity).
  rewrite remove_first_head.
  rewrite remove_first_foreign with (inst := inst)
    by (assumption || reflexivity).
  rewrite remove_first_head.
  apply app_nil_r.
Qed.

Lemma remove_unregistered :
  forall inst pre,
    no_listener_of inst pre = true ->
    remove_first (CONNECTION_CLOSED, callback inst onConnectionClosed)
      (remove_first (VIDEO_PLAY_STARTED, callback inst onVideoStartedStreaming)
         (remove_first
            (CONNECTION_ESTABLISHED, callback inst onConnectionEstablished)
            pre))
    = pre.
Proof.
  intros inst pre Hno.
  assert (H : forall x, owner (snd x) = inst -> remove_first x pre = pre).
  { intros x Hx. generalize (remove_first_foreign inst x pre [] Hno Hx).
    rewrite !app_nil_r. auto. }
  rewrite !H by reflexivity. reflexivity.
Qed.

Lemma timer_id_below_fresh :
  forall tm t, In t tm -> timer_id t < fresh_timer_id tm.
Proof.
  intros tm t Hin. unfold fresh_timer_id.
  assert (H : Forall (fun k => k <= list_max (map timer_id tm))
                     (map timer_id tm)).
  { apply list_max_le. apply Nat.le_refl. }
  rewrite Forall_forall in H.
  specialize (H (timer_id t) (in_map timer_id tm t Hin)). lia.
Qed.

Lemma clear_fresh_timer :
  forall tm d o,
    filter (fun t => negb (Nat.eqb (timer_id t) (fresh_timer_id tm)))
           (tm ++ [mkTimer (fresh_timer_id tm) d o])
    = tm.
Proof.
  intros tm d o. rewrite filter_app. cbn [filter timer_id].
  rewrite Nat.eqb_refl. cbn [negb]. rewrite app_nil_r.
  apply forallb_filter_id. apply forallb_forall. intros t Hin.
  apply negb_true_iff, Nat.eqb_neq.
  pose proof (timer_id_below_fresh tm t Hin). lia.
Qed.

Lemma find_fresh_timer :
  forall tm d o,
    find (fun t => Nat.eqb (timer_id t) (fresh_timer_id tm))
         (tm ++ [mkTimer (fresh_timer_id tm) d o])
    = Some (mkTimer (fresh_timer_id tm) d o).
Proof.
  intros tm d o.
  assert (H : forall l,
             (forall t, In t l -> timer_id t < fresh_timer_id tm) ->
             find (fun t => Nat.eqb (timer_id t) (fresh_timer_id tm))
                  (l ++ [mkTimer (fresh_timer_id tm) d o])
             = Some (mkTimer (fresh_timer_id tm) d o)).
  { induction l as [| t l IH]; intros Hl.
    - cbn [app find timer_id]. rewrite Nat.eqb_refl. reflexivity.
    - cbn [app find].
      assert (Ht : timer_id t < fresh_timer_id tm) by (apply Hl; left; auto).
      apply Nat.lt_neq, Nat.eqb_neq in Ht. rewrite Ht.
      apply IH. intros t' Hin. apply Hl. right. exact Hin. }
  apply H. apply timer_id_below_fresh.
Qed.

(** *** Unmount *)

Lemma unmount_spec :
  forall w,
    unmount w
    = (Normal tt,
       set_timers
         match interval w with
         | Some i =>
             filter (fun t => negb (Nat.eqb (timer_id t) i)) (timers w)
         | None => timers w
         end
         (set_anamClient
            (option_map
               (fun c =>
                  set_listeners
                    (remove_first
                       (CONNECTION_CLOSED,
                        callback (self w) onConnectionClosed)
                       (remove_first
                          (VIDEO_PLAY_STARTED,
                           callback (self w) onVideoStartedStreaming)
                          (remove_first
                             (CONNECTION_ESTABLISHED,
                              callback (self w) onConnectionEstablished)
                             (listeners c)))) c)
               (anamClient w)) w),
       match anamClient w with
       | Some _ =>
           map (fun l => Call_removeListener (fst l) (snd l))
               (registrations (self w))
       | None => []
       end
       ++ match interval w with
          | Some i => [Call_clearInterval i]
          | None => []
          end).
Proof.
  intros [s l lt se v a [[ls r1 r2]|] ini aw [i|] tm]; reflexivity.
Qed.

Lemma set_listeners_same : forall c, set_listeners (listeners c) c = c.
Proof. intros [ls r1 r2]. reflexivity. Qed.

Lemma step_no_timer :
  forall a w,
    no_timer_of (self w) (timers w) = true ->
    secondsElapsed (exec (step a) w) = secondsElapsed w.
Proof.
  intros [i | ev | | ] w Hno; unfold exec; cbn [step].
  - rewrite (fire_timer_foreign w i Hno). reflexivity.
  - destruct (client_emits_spec ev w) as (w' & E & _ & S & _).
    rewrite E. exact S.
  - destruct (startStreaming_resume_spec w) as (w' & t & E & _ & _ & _ & S).
    rewrite E. exact S.
  - reflexivity.
Qed.

Lemma run_no_timer :
  forall l w,
    no_timer_of (self w) (timers w) = true ->
    secondsElapsed (exec (run l) w) = secondsElapsed w.
Proof.
  induction l as [| a l IH]; intros w Hno.
  - reflexivity.
  - rewrite exec_run_cons.
    destruct (step_spec a w) as (w1 & t1 & E1 & F1 & _).
    assert (Ew : exec (step a) w = w1) by (unfold exec; rewrite E1; auto).
    rewrite IH.
    + apply step_no_timer. exact Hno.
    + rewrite Ew. destruct F1 as (Hs & _ & _ & _ & _ & _ & Ht).
      rewrite Hs, Ht. exact Hno.
Qed.

Lemma exec_run_frame :
  forall l w, same_frame w (exec (run l) w).
Proof.
  intros l w. destruct (run_spec l w) as (w' & t & E & F & _).
  unfold exec. rewrite E. exact F.
Qed.

Lemma fresh_instance_timers :
  forall inst w, fresh_instance inst w = true ->
                 no_timer_of inst (timers w) = true.
Proof.
  intros inst w H. unfold fresh_instance in H.
  apply andb_true_iff in H as [_ H]. exact H.
Qed.

Lemma fresh_instance_listeners :
  forall inst w c,
    fresh_instance inst w = true -> anamClient w = Some c ->
    no_listener_of inst (listeners c) = true.
Proof.
  intros inst w c H Hc. unfold fresh_instance in H. rewrite Hc in H.
  apply andb_true_iff in H as [H _]. exact H.
Qed.

(** C5. While the panel is mounted, the interval set up by the mount (a
    period of 1000 ms) is active, and each time it fires the counter goes
    from its value [n] to [n + 1]; the unmount clears that interval, after
    which it is no longer active and nothing that happens, a firing of any
    timer included, changes the counter any more. *)
Theorem tick_adds_one_until_unmount :
  forall inst w acts acts',
    fresh_instance inst w = true ->
    let w1 := exec (mount inst) w in
    let w2 := exec (run acts) w1 in
    let w3 := exec unmount w2 in
    exists i,
      interval w2 = Some i
      /\ In (mkTimer i 1000 inst) (timers w2)
      /\ In (Call_setInterval 1000) (trace_of (mount inst) w)
      /\ (secondsElapsed (exec (fire_timer i) w2) = secondsElapsed w2 + 1)%Z
      /\ (forall x j t,
             find (fun t => Nat.eqb (timer_id t) j) (timers x) = Some t ->
             timer_owner t = self x ->
             secondsElapsed (exec (fire_timer j) x) = secondsElapsed x + 1)%Z
      /\ In (Call_clearInterval i) (trace_of unmount w2)
      /\ find (fun t => Nat.eqb (timer_id t) i) (timers w3) = None
      /\ no_timer_of inst (timers w3) = true
      /\ (forall j, exec (fire_timer j) w3 = w3)
      /\ secondsElapsed (exec (run acts') w3) = secondsElapsed w2.
Proof.
  intros inst w acts acts' Hfresh w1 w2 w3.
  pose proof (mount_spec inst w) as Hm. cbv zeta in Hm.
  assert (H1 : self w1 = inst /\ interval w1 = Some (fresh_timer_id (timers w))
               /\ timers w1
                  = timers w ++ [mkTimer (fresh_timer_id (timers w)) 1000 inst]).
  { subst w1. unfold exec. rewrite Hm. repeat split. }
  destruct H1 as (Hs1 & Hi1 & Ht1).
  destruct (exec_run_frame acts w1) as (Hs2 & _ & _ & _ & _ & Hi2 & Ht2).
  fold w2 in Hs2, Hi2, Ht2.
  rewrite Hs1 in Hs2. rewrite Hi1 in Hi2. rewrite Ht1 in Ht2.
  pose proof (unmount_spec w2) as Hu. rewrite Hi2, Ht2 in Hu.
  rewrite clear_fresh_timer in Hu.
  assert (H3 : self w3 = inst /\ timers w3 = timers w
               /\ secondsElapsed w3 = secondsElapsed w2).
  { subst w3. unfold exec. rewrite Hu. cbn. auto. }
  destruct H3 as (Hs3 & Ht3 & Hse3).
  pose proof (fresh_instance_timers inst w Hfresh) as Hno.
  assert (Hno3 : no_timer_of (self w3) (timers w3) = true)
    by (rewrite Hs3, Ht3; exact Hno).
  exists (fresh_timer_id (timers w)).
  split; [ exact Hi2 | ].
  split; [ rewrite Ht2; apply in_or_app; right; left; reflexivity | ].
  split; [ unfold trace_of; rewrite Hm; apply in_or_app; right; left;
           reflexivity | ].
  split.
  { unfold exec. erewrite fire_timer_own.
    - reflexivity.
    - rewrite Ht2. apply find_fresh_timer.
    - cbn. symmetry. exact Hs2. }
  split.
  { intros x j t Hf Ho. unfold exec. rewrite (fire_timer_own x j t Hf Ho).
    reflexivity. }
  split.
  { unfold trace_of. rewrite Hu. apply in_or_app. right. left. reflexivity. }
  split.
  { rewrite Ht3.
    destruct (find _ (timers w)) as [t|] eqn:Hf; [ | reflexivity ].
    apply find_some in Hf as [Hin Hid]. apply Nat.eqb_eq in Hid.
    pose proof (timer_id_below_fresh (timers w) t Hin). lia. }
  split; [ rewrite Ht3; exact Hno | ].
  split.
  { intros j. unfold exec. rewrite (fire_timer_foreign w3 j Hno3).
    reflexivity. }
  rewrite (run_no_timer acts' w3 Hno3). exact Hse3.
Qed.

Lemma tick_adds_one_until_unmount_witness :
  let c := mkClient [(OTHER_EVENT "x", callback 7 onConnectionClosed)]
                    Fulfilled (Rejected "no camera") in
  let w := mkWorld 0 false "" 5 None None (Some c) true None None
                   [mkTimer 3 50 9] in
  let acts := [Tick 4; ClientEmits CONNECTION_ESTABLISHED; Tick 4] in
  let w2 := exec (run acts) (exec (mount 1) w) in
  fresh_instance 1 w = true
  /\ secondsElapsed (exec (run [Tick 4; Tick 3]) (exec unmount w2))
     = secondsElapsed w2.
Proof.
  intros c w acts w2.
  split; [ reflexivity | ].
  destruct (tick_adds_one_until_unmount 1 w acts [Tick 4; Tick 3] eq_refl)
    as (i & _ & _ & _ & _ & _ & _ & _ & _ & _ & H).
  exact H.
Defined.

(** C6. The counter starts at 0 when the panel mounts, and from then on no
    operation of the panel (interval firing, lifecycle callback, settlement
    of the streaming call, render of the child, unmount) lowers it: it is a
    non-negative integer at every point of the mounted lifetime, and its
    value at a later point is never smaller than at an earlier one. *)
Theorem counter_is_nonnegative_and_never_reset :
  forall inst w acts1 acts2,
    let w1 := exec (mount inst) w in
    let w2 := exec (run acts1) w1 in
    let w3 := exec (run acts2) w2 in
    (secondsElapsed w1 = 0
     /\ 0 <= secondsElapsed w2
     /\ secondsElapsed w2 <= secondsElapsed w3
     /\ (forall a, secondsElapsed w2 <= secondsElapsed (exec (step a) w2))
     /\ secondsElapsed (exec unmount w2) = secondsElapsed w2)%Z.
Proof.
  intros inst w acts1 acts2 w1 w2 w3.
  assert (H1 : secondsElapsed w1 = 0%Z).
  { subst w1. unfold exec. pose proof (mount_spec inst w) as Hm.
    cbv zeta in Hm. rewrite Hm. reflexivity. }
  assert (Hmono : forall l x,
             (secondsElapsed x <= secondsElapsed (exec (run l) x))%Z).
  { intros l x. destruct (run_spec l x) as (x' & t & E & _ & _ & S).
    unfold exec. rewrite E. exact S. }
  pose proof (Hmono acts1 w1) as H12. fold w2 in H12.
  pose proof (Hmono acts2 w2) as H23. fold w3 in H23.
  split; [ exact H1 | ]. split; [ lia | ]. split; [ exact H23 | ].
  split.
  - intros a. destruct (step_spec a w2) as (x' & t & E & _ & _ & S).
    unfold exec. rewrite E. cbn [fst snd]. lia.
  - unfold exec. rewrite unmount_spec. reflexivity.
Qed.

(** *** The first effect and its cleanup *)

Lemma startStreaming_spec :
  forall w,
    let registered :=
      match isClientInitialized w, anamClient w, videoRef w, audioRef w with
      | true, Some _, Some _, Some _ => true
      | _, _, _, _ => false
      end in
    startStreaming w
    = (Normal tt,
       (if registered
        then set_awaiting_stream
               (option_map streamToVideoAndAudioElements_result
                           (anamClient w))
               (set_anamClient
                  (option_map
                     (fun c => set_listeners
                                 (listeners c ++ registrations (self w)) c)
                     (anamClient w)) w)
        else w),
       (if registered
        then map (fun l => Call_addListener (fst l) (snd l))
                 (registrations (self w))
             ++ [Call_streamToVideoAndAudioElements
                   (match videoRef w with Some v => id v | None => "" end)
                   (match audioRef w with Some a => id a | None => "" end)]
        else [])).
Proof.
  intros w registered. subst registered.
  destruct w as [s l lt se [v|] [a|] [c|] [|] aw i tm]; try reflexivity.
  cbn. unfold set_anamClient, set_awaiting_stream, set_listeners, addListener.
  cbn. rewrite <- !app_assoc. reflexivity.
Qed.

Lemma effect_then_cleanup :
  forall w,
    match anamClient w with
    | Some c => no_listener_of (self w) (listeners c) = true
    | None => True
    end ->
    anamClient (exec streaming_cleanup (exec startStreaming w))
    = anamClient w.
Proof.
  intros w Hno.
  assert (Hc : forall x,
             anamClient (exec streaming_cleanup x)
             = anamClient (exec unmount x)).
  { intros x. unfold unmount, exec, bind.
    destruct (streaming_cleanup x) as [[[[]|e] x1] t1] eqn:E; cbn [fst snd].
    - destruct x1 as [s l lt se v a c ini aw [i|] tm]; reflexivity.
    - reflexivity. }
  rewrite Hc. unfold exec at 1. rewrite unmount_spec.
  unfold exec. rewrite startStreaming_spec. cbv zeta.
  destruct w as [s l lt se v a [c|] ini aw i tm]; cbn in Hno |- *.
  - destruct ini, v, a; cbn;
      rewrite ?(remove_registrations s (listeners c) Hno),
              ?(remove_unregistered s (listeners c) Hno);
      rewrite ?set_listeners_same; destruct c; reflexivity.
  - destruct ini, v, a; reflexivity.
Qed.

(** One life of the panel gives the client and the browser back as it found
    them. *)
Lemma life_spec :
  forall inst acts w,
    fresh_instance inst w = true ->
    exists w3 t,
      (mount inst ;; run acts ;; unmount) w = (Normal tt, w3, t)
      /\ w3 = exec unmount (exec (run acts) (exec (mount inst) w))
      /\ anamClient w3 = anamClient w
      /\ timers w3 = timers w.
Proof.
  intros inst acts w Hfresh.
  pose proof (mount_spec inst w) as Hm. cbv zeta in Hm.
  set (w1 := exec (mount inst) w).
  destruct (run_spec acts w1) as (w2 & t2 & E2 & F2 & _).
  assert (Ew2 : exec (run acts) w1 = w2) by (unfold exec; rewrite E2; auto).
  pose proof (unmount_spec w2) as Hu.
  exists (exec unmount w2), (snd (mount inst w) ++ t2 ++ snd (unmount w2)).
  split.
  { assert (Em : mount inst w = (Normal tt, w1, snd (mount inst w))).
    { subst w1. unfold exec. rewrite Hm. reflexivity. }
    unfold bind. rewrite Em, E2. unfold exec. rewrite Hu. reflexivity. }
  split; [ rewrite Ew2; reflexivity | ].
  destruct F2 as (Hs & _ & _ & Hc & _ & Hi & Ht).
  assert (H1 : self w1 = inst
               /\ interval w1 = Some (fresh_timer_id (timers w))
               /\ timers w1
                  = timers w ++ [mkTimer (fresh_timer_id (timers w)) 1000 inst]
               /\ anamClient w1
                  = match isClientInitialized w with
                    | true =>
                        option_map
                          (fun c => set_listeners
                                      (listeners c ++ registrations inst) c)
                          (anamClient w)
                    | false => anamClient w
                    end).
  { subst w1. unfold exec. rewrite Hm. cbn.
    destruct (isClientInitialized w), (anamClient w); repeat split. }
  destruct H1 as (Hs1 & Hi1 & Ht1 & Hc1).
  unfold exec. rewrite Hu. cbn [fst snd set_timers set_anamClient anamClient
                                 timers interval self].
  rewrite Hs, Hi, Ht, Hc, Hs1, Hi1, Ht1, Hc1.
  split; [ | apply clear_fresh_timer ].
  destruct (anamClient w) as [c|] eqn:Ec.
  - pose proof (fresh_instance_listeners inst w c Hfresh Ec) as Hno.
    destruct (isClientInitialized w); cbn [option_map set_listeners listeners].
    + rewrite (remove_registrations inst (listeners c) Hno).
      destruct c; reflexivity.
    + rewrite (remove_unregistered inst (listeners c) Hno).
      destruct c; reflexivity.
  - destruct (isClientInitialized w); reflexivity.
Qed.

Lemma fresh_instance_ext :
  forall inst w w',
    anamClient w' = anamClient w -> timers w' = timers w ->
    fresh_instance inst w' = fresh_instance inst w.
Proof.
  intros inst w w' Hc Ht. unfold fresh_instance. rewrite Hc, Ht. reflexivity.
Qed.

Lemma remounts_spec :
  forall lives w,
    Forall (fun life => fresh_instance (fst life) w = true) lives ->
    exists w' t,
      remounts lives w = (Normal tt, w', t)
      /\ anamClient w' = anamClient w
      /\ timers w' = timers w.
Proof.
  induction lives as [| [inst acts] lives IH]; intros w Hall.
  - exists w, []. repeat split.
  - inversion Hall as [| x l Hfresh Hrest]; subst. cbn [fst] in Hfresh.
    destruct (life_spec inst acts w Hfresh) as (w3 & t3 & E3 & _ & Hc3 & Ht3).
    assert (Hall' : Forall (fun life => fresh_instance (fst life) w3 = true)
                           lives).
    { eapply Forall_impl; [ | exact Hrest ].
      intros life H. cbn beta in H |- *.
      rewrite (fresh_instance_ext _ w w3 Hc3 Ht3). exact H. }
    destruct (IH w3 Hall') as (w' & t & E & Hc & Ht).
    exists w', (t3 ++ t). split.
    + cbn [remounts].
      assert (Ha : forall x,
                 (mount inst ;; run acts ;; unmount ;; remounts lives) x
                 = ((mount inst ;; run acts ;; unmount) ;; remounts lives) x).
      { intros x. unfold bind.
        destruct (mount inst x) as [[[[]|e1] x1] t1]; [ | reflexivity ].
        destruct (run acts x1) as [[[[]|e2] x2] t2]; [ | reflexivity ].
        destruct (unmount x2) as [[[[]|e4] x4] t4];
          [ | rewrite <- ?app_assoc; reflexivity ].
        destruct (remounts lives x4) as [[c5 x5] t5].
        rewrite <- !app_assoc. reflexivity. }
      rewrite Ha. unfold bind at 1. rewrite E3, E. reflexivity.
    + split; congruence.
Qed.

(** C7. In every life of the panel, what the unmount takes out of the
    client's registry is exactly what the mount put in: the three
    registrations of the instance (connection established, video play
    started, connection closed) when the mount registered them, nothing when
    it skipped the registration (no client, client not initialized, media
    refs absent; the removal calls then find nothing to remove).  The
    listeners the mount adds are among those the unmount asks to remove, the
    client is left as it was found, with no listener of the disposed
    instance, and so it is after any number of remounts. *)
Theorem listeners_added_on_mount_are_removed_on_unmount :
  forall inst w acts lives,
    fresh_instance inst w = true ->
    Forall (fun life => fresh_instance (fst life) w = true) lives ->
    let w1 := exec (mount inst) w in
    let w2 := exec (run acts) w1 in
    let w3 := exec unmount w2 in
    let added := added_by (trace_of (mount inst) w) in
    added = (if isClientInitialized w
                && match anamClient w with Some _ => true | None => false end
             then registrations inst else [])
    /\ option_map listeners (anamClient w2)
       = option_map (fun c => listeners c ++ added) (anamClient w)
    /\ option_map listeners (anamClient w3)
       = option_map listeners (anamClient w)
    /\ anamClient w3 = anamClient w
    /\ incl added (removal_calls (trace_of unmount w2))
    /\ fresh_instance inst w3 = true
    /\ anamClient (exec (remounts lives) w) = anamClient w
    /\ (forall x,
           fresh_instance (self x) x = true ->
           anamClient (exec streaming_cleanup (exec startStreaming x))
           = anamClient x).
Proof.
  intros inst w acts lives Hfresh Hlives w1 w2 w3 added.
  pose proof (mount_spec inst w) as Hm. cbv zeta in Hm.
  destruct (exec_run_frame acts w1) as (Hs2 & _ & _ & Hc2 & _ & Hi2 & _).
  fold w2 in Hs2, Hc2, Hi2.
  destruct (life_spec inst acts w Hfresh) as (x3 & t3 & _ & Ex3 & Hc3 & Ht3).
  fold w1 in Ex3. fold w2 in Ex3. fold w3 in Ex3. subst x3.
  assert (Hadded : added
                   = (if isClientInitialized w
                         && match anamClient w with
                            | Some _ => true | None => false end
                      then registrations inst else [])).
  { subst added. unfold trace_of. rewrite Hm.
    destruct (isClientInitialized w), (anamClient w); reflexivity. }
  assert (Hc1 : option_map listeners (anamClient w1)
                = option_map (fun c => listeners c ++ added) (anamClient w)).
  { rewrite Hadded. subst w1. unfold exec. rewrite Hm. cbn.
    destruct (isClientInitialized w), (anamClient w) as [c|]; cbn;
      rewrite ?app_nil_r; reflexivity. }
  split; [ exact Hadded | ].
  split; [ rewrite Hc2; exact Hc1 | ].
  split; [ rewrite Hc3; reflexivity | ].
  split; [ exact Hc3 | ].
  split.
  { unfold trace_of. rewrite unmount_spec. cbn [snd].
    rewrite Hadded.
    destruct (anamClient w) as [c|] eqn:Ec.
    - assert (Hsome : exists c2, anamClient w2 = Some c2).
      { destruct (anamClient w2) as [c2|] eqn:E2; [ eauto | ].
        rewrite <- Hc2 in Hc1. discriminate Hc1. }
      destruct Hsome as [c2 E2]. rewrite E2, Hs2.
      assert (Hs1 : self w1 = inst)
        by (subst w1; unfold exec; rewrite Hm; reflexivity).
      rewrite Hs1.
      destruct (interval w2);
        destruct (isClientInitialized w); cbn;
        intros x Hx; cbn in Hx |- *; tauto.
    - rewrite andb_false_r. intros x [].
  }
  split.
  { rewrite (fresh_instance_ext inst w w3 Hc3 Ht3). exact Hfresh. }
  split.
  { destruct (remounts_spec lives w Hlives) as (w' & t & E & Hc & _).
    unfold exec. rewrite E. exact Hc. }
  intros x Hx. apply effect_then_cleanup.
  destruct (anamClient x) as [c|] eqn:Ec; [ | exact I ].
  exact (fresh_instance_listeners (self x) x c Hx Ec).
Qed.

Lemma listeners_added_on_mount_are_removed_on_unmount_witness :
  let c := mkClient [(OTHER_EVENT "x", callback 7 onConnectionClosed)]
                    Fulfilled (Rejected "no camera") in
  let w := mkWorld 0 false "" 5 None None (Some c) true None None
                   [mkTimer 3 50 9] in
  let acts := [ClientEmits CONNECTION_ESTABLISHED; StreamSettles] in
  let lives := [(2, [Tick 4]); (3, [ClientEmits CONNECTION_CLOSED])] in
  (fresh_instance 1 w = true
   /\ Forall (fun life => fresh_instance (fst life) w = true) lives)
  /\ anamClient (exec unmount (exec (run acts) (exec (mount 1) w)))
     = anamClient w
  /\ anamClient (exec (remounts lives) w) = anamClient w.
Proof.
  intros c w acts lives.
  assert (Hl : Forall (fun life => fresh_instance (fst life) w = true) lives)
    by (repeat constructor).
  split; [ split; [ reflexivity | exact Hl ] | ].
  destruct (listeners_added_on_mount_are_removed_on_unmount
              1 w acts lives eq_refl Hl)
    as (_ & _ & _ & H3 & _ & _ & Hr & _).
  exact (conj H3 Hr).
Defined.

(** C8. When the panel mounts with an initialized client, the media elements
    its render attached to the refs being there, the mount makes exactly
    three [addListener] calls, for connection established, video play
    started and connection closed, each before the one call of
    [streamToVideoAndAudioElements], and that call is given the element ids
    "video" and "audio". *)
Theorem mount_registers_three_listeners_then_streams :
  forall inst w c,
    anamClient w = Some c ->
    isClientInitialized w = true ->
    let t := trace_of (mount inst) w in
    let w1 := exec (mount inst) w in
    let stream := Call_streamToVideoAndAudioElements "video" "audio" in
    t = [ Call_addListener CONNECTION_ESTABLISHED
            (callback inst onConnectionEstablished);
          Call_addListener VIDEO_PLAY_STARTED
            (callback inst onVideoStartedStreaming);
          Call_addListener CONNECTION_CLOSED
            (callback inst onConnectionClosed);
          stream;
          Call_setInterval 1000 ]
    /\ count is_addListener t = 3
    /\ added_by t = registrations inst
    /\ option_map listeners (anamClient w1)
       = Some (listeners c ++ registrations inst)
    /\ (forall l, In l (registrations inst) ->
                  Before (Call_addListener (fst l) (snd l)) stream t)
    /\ videoRef w1 = Some video_element
    /\ audioRef w1 = Some audio_element
    /\ (forall x cx v a,
           isClientInitialized x = true -> anamClient x = Some cx ->
           videoRef x = Some v -> audioRef x = Some a ->
           trace_of startStreaming x
           = map (fun l => Call_addListener (fst l) (snd l))
                 (registrations (self x))
             ++ [Call_streamToVideoAndAudioElements (id v) (id a)]).
Proof.
  intros inst w c Hc Hi t w1 stream. subst t w1 stream.
  pose proof (mount_spec inst w) as Hm. cbv zeta in Hm.
  rewrite Hc, Hi in Hm. unfold trace_of, exec. rewrite Hm.
  cbn [fst snd anamClient videoRef audioRef option_map set_listeners
       listeners map registrations app].
  repeat (split; [ reflexivity | ]).
  split.
  { intros l [<- | [<- | [<- | []]]]; cbn [fst snd]; before. }
  repeat (split; [ reflexivity | ]).
  intros x cx v a Hix Hcx Hv Ha.
  rewrite startStreaming_spec. cbv zeta. rewrite Hix, Hcx, Hv, Ha.
  reflexivity.
Qed.

Lemma mount_registers_three_listeners_then_streams_witness :
  let c := mkClient [(OTHER_EVENT "x", callback 7 onConnectionClosed)]
                    Fulfilled (Rejected "no camera") in
  let w := mkWorld 0 false "" 5 None None (Some c) true None None
                   [mkTimer 3 50 9] in
  (anamClient w = Some c /\ isClientInitialized w = true)
  /\ trace_of (mount 1) w
     = [ Call_addListener CONNECTION_ESTABLISHED
           (callback 1 onConnectionEstablished);
         Call_addListener VIDEO_PLAY_STARTED
           (callback 1 onVideoStartedStreaming);
         Call_addListener CONNECTION_CLOSED
           (callback 1 onConnectionClosed);
         Call_streamToVideoAndAudioElements "video" "audio";
         Call_setInterval 1000 ].
Proof.
  intros c w.
  split; [ split; reflexivity | ].
  exact (proj1 (mount_registers_three_listeners_then_streams
                  1 w c eq_refl eq_refl)).
Defined.

(** *** Delivery of the client's events to the registered callbacks *)

Lemma invoke_listeners_foreign :
  forall inst ev pre l w,
    no_listener_of inst pre = true ->
    invoke_listeners inst ev (pre ++ l) w = invoke_listeners inst ev l w.
Proof.
  intros inst ev pre l w Hno. induction pre as [| [ev' cb] pre IH].
  - reflexivity.
  - cbn [no_listener_of forallb snd] in Hno.
    apply andb_true_iff in Hno as [Hcb Hno].
    apply negb_true_iff in Hcb.
    cbn [app invoke_listeners]. rewrite Hcb, andb_false_r.
    unfold bind, ret. rewrite (IH Hno).
    destruct (invoke_listeners inst ev l w) as [[c x] t]. reflexivity.
Qed.

Lemma client_emits_registered :
  forall inst pre c ev w,
    self w = inst -> anamClient w = Some c ->
    listeners c = pre ++ registrations inst ->
    no_listener_of inst pre = true ->
    client_emits ev w
    = (Normal tt,
       match ev with
       | CONNECTION_ESTABLISHED =>
           set_loadingText "Connected to a Persona." w
       | VIDEO_PLAY_STARTED | CONNECTION_CLOSED => set_loading false w
       | OTHER_EVENT _ => w
       end,
       []).
Proof.
  intros inst pre c ev w Hs Hc Hl Hno.
  unfold client_emits, bind at 1, read. rewrite Hc, Hl, Hs.
  rewrite (invoke_listeners_foreign inst ev pre _ w Hno).
  unfold registrations, callback. cbn [invoke_listeners owner handler].
  rewrite Nat.eqb_refl.
  destruct ev; reflexivity.
Qed.

Lemma step_keeps_loading :
  forall a w,
    (forall ev, a <> ClientEmits ev) ->
    loading (exec (step a) w) = loading w
    /\ loadingText (exec (step a) w) = loadingText w.
Proof.
  intros [i | ev | | ] w Hne; unfold exec; cbn [step].
  - destruct (fire_timer_spec w i) as (w' & E & _ & L & T & _).
    rewrite E. auto.
  - destruct (Hne ev). reflexivity.
  - destruct (startStreaming_resume_spec w) as (w' & t & E & _ & L & T & _).
    rewrite E. auto.
  - auto.
Qed.

Lemma emitted_cons :
  forall ev a l,
    emitted ev (a :: l)
    = (match a with
       | ClientEmits ev' => AnamEvent_eqb ev ev'
       | _ => false
       end || emitted ev l).
Proof. reflexivity. Qed.

Lemma run_loading :
  forall inst pre c acts w,
    self w = inst -> anamClient w = Some c ->
    listeners c = pre ++ registrations inst ->
    no_listener_of inst pre = true ->
    loading (exec (run acts) w)
    = loading w
      && negb (emitted VIDEO_PLAY_STARTED acts
               || emitted CONNECTION_CLOSED acts)
    /\ loadingText (exec (run acts) w)
       = (if emitted CONNECTION_ESTABLISHED acts
          then "Connected to a Persona." else loadingText w).
Proof.
  intros inst pre c acts. induction acts as [| a acts IH];
    intros w Hs Hc Hl Hno.
  - cbn. rewrite andb_true_r. auto.
  - rewrite exec_run_cons.
    destruct (step_spec a w) as (w1 & t1 & E1 & F1 & _).
    assert (Ew : exec (step a) w = w1) by (unfold exec; rewrite E1; auto).
    destruct F1 as (Hs1 & _ & _ & Hc1 & _).
    assert (IH1 := IH (exec (step a) w)).
    rewrite Ew in IH1 |- *.
    specialize (IH1 (eq_trans Hs1 Hs) (eq_trans Hc1 Hc) Hl Hno).
    destruct IH1 as [IHl IHt]. rewrite IHl, IHt.
    destruct a as [i | ev | | ].
    + destruct (step_keeps_loading (Tick i) w) as [L T];
        [ discriminate | ].
      rewrite Ew in L, T. rewrite L, T. auto.
    + assert (Ee := client_emits_registered inst pre c ev w Hs Hc Hl Hno).
      cbn [step] in E1. rewrite Ee in E1.
      injection E1 as <- _.
      rewrite !emitted_cons.
      destruct ev; cbn [AnamEvent_eqb orb negb andb
                        loading loadingText set_loading set_loadingText];
        rewrite ?orb_true_r; cbn [negb]; rewrite ?andb_false_r; auto.
      destruct (emitted CONNECTION_ESTABLISHED acts); auto.
    + destruct (step_keeps_loading StreamSettles w) as [L T];
        [ discriminate | ].
      rewrite Ew in L, T. rewrite L, T. auto.
    + destruct (step_keeps_loading ChildRenders w) as [L T];
        [ discriminate | ].
      rewrite Ew in L, T. rewrite L, T. auto.
Qed.

(** C9. The spinner state is determined by the lifecycle events the client
    has emitted since the mount: it starts as loading with the message
    "Connecting..."; the connection-established callback changes the message
    to "Connected to a Persona." and nothing else, so the flag stays as it
    was; the video-play-started and connection-closed callbacks set the flag
    to false; and once false the flag is never true again. *)
Theorem loading_state_follows_lifecycle_events :
  forall inst w c acts acts',
    fresh_instance inst w = true ->
    anamClient w = Some c ->
    isClientInitialized w = true ->
    let w1 := exec (mount inst) w in
    let w2 := exec (run acts) w1 in
    loading w1 = true
    /\ loadingText w1 = "Connecting..."
    /\ loading w2
       = negb (emitted VIDEO_PLAY_STARTED acts
               || emitted CONNECTION_CLOSED acts)
    /\ loadingText w2
       = (if emitted CONNECTION_ESTABLISHED acts
          then "Connected to a Persona." else "Connecting...")
    /\ (forall x, exec onConnectionEstablished_cb x
                  = set_loadingText "Connected to a Persona." x)
    /\ (forall x, loading (exec onConnectionEstablished_cb x) = loading x)
    /\ (forall x, exec onVideoStartedStreaming_cb x = set_loading false x)
    /\ (forall x, exec onConnectionClosed_cb x = set_loading false x)
    /\ (loading w2 = false -> loading (exec (run acts') w2) = false).
Proof.
  intros inst w c acts acts' Hfresh Hc Hi w1 w2.
  pose proof (mount_spec inst w) as Hm. cbv zeta in Hm.
  rewrite Hc, Hi in Hm. cbn [option_map] in Hm.
  assert (H1 : loading w1 = true /\ loadingText w1 = "Connecting..."
               /\ self w1 = inst
               /\ anamClient w1
                  = Some (set_listeners
                            (listeners c ++ registrations inst) c)).
  { subst w1. unfold exec. rewrite Hm. repeat split. }
  destruct H1 as (Hl1 & Ht1 & Hs1 & Hc1).
  pose proof (fresh_instance_listeners inst w c Hfresh Hc) as Hno.
  destruct (run_loading inst (listeners c) _ acts w1 Hs1 Hc1 eq_refl Hno)
    as [Hl2 Ht2].
  fold w2 in Hl2, Ht2. rewrite Hl1 in Hl2. rewrite Ht1 in Ht2.
  split; [ exact Hl1 | ]. split; [ exact Ht1 | ].
  split; [ exact Hl2 | ]. split; [ exact Ht2 | ].
  repeat (split; [ reflexivity | ]).
  intros Hf. destruct (run_spec acts' w2) as (w3 & t & E & _ & L & _).
  unfold exec. rewrite E. exact (L Hf).
Qed.

Lemma loading_state_follows_lifecycle_events_witness :
  let c := mkClient [(OTHER_EVENT "x", callback 7 onConnectionClosed)]
                    Fulfilled (Rejected "no camera") in
  let w := mkWorld 0 false "" 5 None None (Some c) true None None
                   [mkTimer 3 50 9] in
  let acts := [ClientEmits CONNECTION_ESTABLISHED; Tick 4;
               ClientEmits VIDEO_PLAY_STARTED] in
  let w2 := exec (run acts) (exec (mount 1) w) in
  (fresh_instance 1 w = true /\ anamClient w = Some c
   /\ isClientInitialized w = true)
  /\ loading w2 = false
  /\ loadingText w2 = "Connected to a Persona.".
Proof.
  intros c w acts w2.
  split; [ repeat split | ].
  destruct (loading_state_follows_lifecycle_events
              1 w c acts [] eq_refl eq_refl eq_refl)
    as (_ & _ & Hl & Ht & _).
  exact (conj Hl Ht).
Defined.

End AvatarProperties.


(** ** Sequences of clicks on the sidebar *)
Module SidebarRuns.
Import NavigationSidebar.
Import VDom.
Import SidebarView.

Lemma count_app :
  forall p t1 t2, count p (t1 ++ t2) = count p t1 + count p t2.
Proof.
  intros p t1 t2. unfold count. rewrite filter_app, length_app. reflexivity.
Qed.

(** What every click does, whatever the entry and the state. *)
Lemma click_summary :
  forall m w,
    exists w' t,
      click m w = (Normal tt, w', t)
      /\ anamClient w' = anamClient w
      /\ count is_stopStreaming t <= 1
      /\ (forall path, In (Router_push path) t -> path = "/")
      /\ (location w' = location w \/ location w' = "/")
      /\ (w' = w
          \/ (clickable m = true /\ navigateTo m = "Initial"
              /\ currentView w' = "Demo")
          \/ (clickable m = true /\ navigateTo m <> "Initial"
              /\ currentView w' = navigateTo m)).
Proof.
  intros m w.
  destruct (clickable m) eqn:Hc.
  - destruct (String.eqb_spec (navigateTo m) "Initial") as [Hn | Hn].
    + eexists _, _. split; [ exact (SidebarProperties.click_exit m w Hn Hc) | ].
      cbn [anamClient location currentView].
      split; [ reflexivity | ]. split.
      { destruct (anamClient w) as [c|];
          [ destruct (stopStreaming_result c) | ]; cbn; lia. }
      split.
      { intros path Hin. apply in_app_or in Hin as [Hin | Hin].
        - destruct (anamClient w) as [c|];
            [ destruct (stopStreaming_result c) | ]; cbn in Hin;
            repeat (destruct Hin as [Hin | Hin]; [ discriminate Hin | ]);
            contradiction.
        - cbn in Hin.
          destruct Hin as [Hin | Hin]; [ injection Hin; auto | ].
          repeat (destruct Hin as [Hin | Hin]; [ discriminate Hin | ]).
          contradiction. }
      split; [ right; reflexivity | ].
      right. left. auto.
    + eexists _, _. split; [ exact (SidebarProperties.click_view m w Hn Hc) | ].
      cbn [anamClient location currentView].
      split; [ reflexivity | ]. split.
      { destruct ((currentView w =? "Demo") && negb (navigateTo m =? "Demo"));
          [ destruct (anamClient w) as [c|];
            [ destruct (stopStreaming_result c) | ] | ]; cbn; lia. }
      split.
      { intros path Hin.
        destruct ((currentView w =? "Demo") && negb (navigateTo m =? "Demo"));
          [ destruct (anamClient w) as [c|];
            [ destruct (stopStreaming_result c) | ] | ]; cbn in Hin;
          repeat (destruct Hin as [Hin | Hin]; [ discriminate Hin | ]);
          contradiction. }
      split; [ left; reflexivity | ].
      right. right. auto.
  - exists w, []. split.
    { unfold click, handleMenuClick. rewrite Hc. reflexivity. }
    cbn. repeat split; auto. intros path [].
Qed.

Lemma clicks_cons :
  forall m l w,
    clicks (m :: l) w
    = (fst (fst (clicks l (exec (click m) w))),
       snd (fst (clicks l (exec (click m) w))),
       trace_of (click m) w ++ snd (clicks l (exec (click m) w))).
Proof.
  intros m l w. destruct (click_summary m w) as (w' & t & E & _).
  cbn [clicks]. unfold bind, exec, trace_of. rewrite E. cbn [fst snd].
  destruct (clicks l w') as [[c x] t2]. reflexivity.
Qed.

(** X1. No sequence of clicks makes a handler throw, whichever entries are
    clicked and however the [stopStreaming] promises settle; a sequence of
    [n] clicks calls [stopStreaming] at most [n] times; the only page ever
    pushed to the router is "/", so the page is the initial one or "/". *)
Theorem clicks_never_throw :
  forall ms w,
    completion_of (clicks ms) w = Normal tt
    /\ count is_stopStreaming (trace_of (clicks ms) w) <= length ms
    /\ (forall path,
           In (Router_push path) (trace_of (clicks ms) w) -> path = "/")
    /\ (location (exec (clicks ms) w) = location w
        \/ location (exec (clicks ms) w) = "/")
    /\ anamClient (exec (clicks ms) w) = anamClient w.
Proof.
  induction ms as [| m ms IH]; intros w.
  - cbn. repeat split; auto. intros path [].
  - destruct (click_summary m w) as (w' & t & E & Ha & Hs & Hp & Hl & _).
    unfold completion_of, exec, trace_of in *. rewrite clicks_cons.
    unfold exec, trace_of. rewrite E. cbn [fst snd length].
    destruct (IH w') as (Hc' & Hs' & Hp' & Hl' & Ha').
    split; [ exact Hc' | ].
    split; [ rewrite count_app; lia | ].
    split.
    { intros path Hin. apply in_app_or in Hin as [Hin | Hin]; auto. }
    split.
    { destruct Hl' as [Hl' | Hl']; [ rewrite Hl'; exact Hl | auto ]. }
    congruence.
Qed.

Lemma clicks_view :
  forall ms w,
    Forall (fun m => In m Menus) ms ->
    currentView (exec (clicks ms) w) = currentView w
    \/ currentView (exec (clicks ms) w) = "Demo"
    \/ currentView (exec (clicks ms) w) = "Settings".
Proof.
  induction ms as [| m ms IH]; intros w Hall.
  - left. reflexivity.
  - inversion Hall as [| x l Hin Hrest]; subst.
    destruct (click_summary m w) as (w' & t & E & _ & _ & _ & _ & Hv).
    assert (Ew : exec (clicks (m :: ms)) w = exec (clicks ms) w').
    { unfold exec. rewrite clicks_cons. unfold exec. rewrite E. reflexivity. }
    rewrite Ew.
    destruct (IH w' Hrest) as [H | H]; [ | right; exact H ].
    rewrite H.
    destruct Hv as [-> | [(_ & _ & Hd) | (Hc & Hn & Hd)]].
    + left. reflexivity.
    + right. left. exact Hd.
    + rewrite Hd. cbn in Hin.
      repeat (destruct Hin as [<- | Hin];
              [ cbn in Hc, Hn |- *;
                first [ discriminate Hc | congruence | tauto ] | ]).
      contradiction.
Qed.

(** X2. Through the menu only two views can be reached: after any sequence
    of clicks on entries of [Menus] the current view is the one the sequence
    started from, "Demo" or "Settings"; in particular the views of the
    entries that are not clickable are never entered. *)
Theorem menu_reaches_only_demo_and_settings :
  forall ms w,
    Forall (fun m => In m Menus) ms ->
    let v := currentView (exec (clicks ms) w) in
    (v = currentView w \/ v = "Demo" \/ v = "Settings")
    /\ (forall m, In m Menus -> clickable m = false ->
                  currentView w <> navigateTo m -> v <> navigateTo m).
Proof.
  intros ms w Hall v. subst v.
  pose proof (clicks_view ms w Hall) as H.
  split; [ exact H | ].
  intros m Hin Hc Hne.
  destruct H as [H | [H | H]]; rewrite H; [ exact Hne | | ];
    cbn in Hin;
    repeat (destruct Hin as [<- | Hin];
            [ cbn in Hc |- *; first [ discriminate Hc | discriminate ] | ]);
    contradiction.
Qed.

Lemma menu_reaches_only_demo_and_settings_witness :
  let settings := {| title := "Settings"; navigateTo := "Settings";
                     icon := Settings; gap := Some true;
                     clickable := true |} in
  let practice := {| title := "Practice"; navigateTo := "Practice";
                     icon := Pencil; gap := Some true;
                     clickable := false |} in
  let w := {| open := true; currentView := "Demo"; location := "/demo";
              anamClient := None |} in
  Forall (fun m => In m Menus) [practice; settings; practice]
  /\ (currentView (exec (clicks [practice; settings; practice]) w)
      = currentView w
      \/ currentView (exec (clicks [practice; settings; practice]) w) = "Demo"
      \/ currentView (exec (clicks [practice; settings; practice]) w)
         = "Settings").
Proof.
  intros settings practice w.
  assert (H : Forall (fun m => In m Menus) [practice; settings; practice])
    by (repeat constructor; simpl; tauto).
  split; [ exact H | ].
  exact (proj1 (menu_reaches_only_demo_and_settings
                  [practice; settings; practice] w H)).
Defined.

(** X3. The Exit click resets the sidebar's state: the state it leaves and
    the calls it makes depend on the client only, not on the sidebar flag,
    view or page it was clicked in; clicking Exit a second time leaves the
    state of the first. *)
Theorem exit_click_resets_state :
  forall m w1 w2,
    clickable m = true -> navigateTo m = "Initial" ->
    anamClient w1 = anamClient w2 ->
    exec (click m) w1 = exec (click m) w2
    /\ trace_of (click m) w1 = trace_of (click m) w2
    /\ exec (click m) (exec (click m) w1) = exec (click m) w1.
Proof.
  intros m w1 w2 Hc Hn Ha. unfold exec, trace_of.
  rewrite !(SidebarProperties.click_exit m _ Hn Hc). cbn [fst snd anamClient].
  rewrite Ha. repeat split.
Qed.

Lemma exit_click_resets_state_witness :
  let exit := {| title := "Exit"; navigateTo := "Initial"; icon := X;
                 gap := Some true; clickable := true |} in
  let c := mkClient [] (Rejected "offline") Fulfilled in
  let w1 := {| open := true; currentView := "Settings"; location := "/demo";
               anamClient := Some c |} in
  let w2 := {| open := false; currentView := "Demo"; location := "/";
               anamClient := Some c |} in
  (clickable exit = true /\ navigateTo exit = "Initial"
   /\ anamClient w1 = anamClient w2)
  /\ exec (click exit) w1 = exec (click exit) w2.
Proof.
  intros exit c w1 w2.
  split; [ repeat split | ].
  exact (proj1 (exit_click_resets_state exit w1 w2 eq_refl eq_refl eq_refl)).
Defined.




End SidebarRuns.

(** ** Properties of the sidebar's render *)
Module SidebarViewProperties.
Import NavigationSidebar.
Import VDom.
Import SidebarView.

Lemma the_menu_render :
  forall theme w,
    the_menu (render theme w)
    = map (menu_li (open w) theme (currentView w)
                   (MenuClick (currentView w) (anamClient w)))
          Menus.
Proof.
  intros theme [o v l a]. destruct o; reflexivity.
Qed.

(** X5. The rendered menu is [Menus]: one item per entry, in the order of
    the entries and keyed by their titles, which are pairwise distinct; a
    click on the i-th item runs [handleMenuClick] with the target and the
    clickable flag of the i-th entry; the item shows the entry's icon, and
    its title only while the sidebar is open. *)
Theorem rendered_menu_is_Menus :
  forall theme w,
    map key_of (the_menu (render theme w))
    = map (fun m => Some (title m)) Menus
    /\ NoDup (map key_of (the_menu (render theme w)))
    /\ (forall i m,
           nth_error Menus i = Some m ->
           click_on (the_menu_item i) theme w = click m w)
    /\ (forall i,
           nth_error Menus i = None ->
           click_on (the_menu_item i) theme w = (Normal tt, w, []))
    /\ (forall i m,
           nth_error Menus i = Some m ->
           exists n,
             the_menu_item i (render theme w) = Some n
             /\ map tag_of (children_of n)
                = icon_tag (icon m) :: (if open w then ["Text"] else [])
             /\ (open w = true ->
                 option_map children_of (nth_error (children_of n) 1)
                 = Some [TextNode (title m)])).
Proof.
  intros theme w.
  assert (Hkeys : map key_of (the_menu (render theme w))
                  = map (fun m => Some (title m)) Menus).
  { rewrite the_menu_render, map_map. reflexivity. }
  split; [ exact Hkeys | ].
  split.
  { rewrite Hkeys. cbn.
    repeat (constructor;
            [ cbn; intros H;
              repeat (destruct H as [H | H]; [ discriminate H | ]);
              exact H | ]).
    constructor. }
  assert (Hitem : forall i,
             the_menu_item i (render theme w)
             = option_map (menu_li (open w) theme (currentView w)
                             (MenuClick (currentView w) (anamClient w)))
                          (nth_error Menus i)).
  { intros i. unfold the_menu_item. rewrite the_menu_render.
    apply nth_error_map. }
  split.
  { intros i m Hi. unfold click_on. rewrite Hitem, Hi. reflexivity. }
  split.
  { intros i Hi. unfold click_on. rewrite Hitem, Hi. reflexivity. }
  intros i m Hi. rewrite Hitem, Hi. cbn [option_map].
  eexists. split; [ reflexivity | ].
  destruct (open w); split; try reflexivity. discriminate.
Qed.

Lemma rendered_menu_is_Menus_witness :
  let w := {| open := true; currentView := "Demo"; location := "/demo";
              anamClient := None |} in
  let settings := {| title := "Settings"; navigateTo := "Settings";
                     icon := Settings; gap := Some true;
                     clickable := true |} in
  nth_error Menus 4 = Some settings
  /\ click_on (the_menu_item 4) None w = click settings w.
Proof.
  intros w settings.
  split; [ reflexivity | ].
  exact (proj1 (proj2 (proj2 (rendered_menu_is_Menus None w)))
               4 settings eq_refl).
Defined.

(** X6. The classes of a menu item say what the entry is: it carries
    [pointer-events-none] exactly when the entry is not clickable; it is
    highlighted ([bg-gray-200]) exactly when the entry's target is the current
    view, even if the entry is not clickable; it is dimmed ([opacity-50])
    exactly when it is neither clickable nor current; it is centred
    ([justify-center]) exactly when the sidebar is closed; and its top margin
    is [mt-9] when the entry has a gap, [mt-2] when it has none or no [gap]
    field at all. *)
Theorem menu_item_classes :
  forall open theme currentView handler m,
    let n := menu_li open theme currentView handler m in
    has_class "pointer-events-none" n = negb (clickable m)
    /\ has_class "bg-gray-200" n = (currentView =? navigateTo m)
    /\ has_class "opacity-50" n
       = negb (clickable m) && negb (currentView =? navigateTo m)
    /\ has_class "hover:bg-gray-100" n
       = clickable m && negb (currentView =? navigateTo m)
    /\ has_class "justify-center" n = negb open
    /\ has_class "mt-9" n = gap_set m
    /\ has_class "mt-2" n = negb (gap_set m).
Proof.
  intros o theme cv handler m n. subst n.
  unfold has_class, className_of, menu_li, prop_of, lookup_prop.
  cbn [String.eqb Ascii.eqb Bool.eqb].
  unfold li_className, gap_set.
  destruct (gap m) as [[|]|], (clickable m), (cv =? navigateTo m), o;
    vm_compute; repeat split.
Qed.

Lemma one_target_matches :
  forall cv,
    length (filter (fun m => cv =? navigateTo m) Menus)
    = if existsb (fun m => cv =? navigateTo m) Menus then 1 else 0.
Proof.
  intros cv. cbn [Menus filter existsb navigateTo].
  destruct (String.eqb_spec cv "Demo") as [-> | _]; [ reflexivity | ].
  destruct (String.eqb_spec cv "Vocabulary") as [-> | _]; [ reflexivity | ].
  destruct (String.eqb_spec cv "Practice") as [-> | _]; [ reflexivity | ].
  destruct (String.eqb_spec cv "Progress") as [-> | _]; [ reflexivity | ].
  destruct (String.eqb_spec cv "Settings") as [-> | _]; [ reflexivity | ].
  destruct (String.eqb_spec cv "Initial") as [-> | _]; reflexivity.
Qed.

(** X7. At most one item of the rendered menu is highlighted: exactly one
    when the current view is the target of an entry of [Menus], none
    otherwise. *)
Theorem one_menu_item_is_highlighted :
  forall theme w,
    length (filter (has_class "bg-gray-200") (the_menu (render theme w)))
    = if existsb (fun m => currentView w =? navigateTo m) Menus
      then 1 else 0.
Proof.
  intros theme w. rewrite the_menu_render.
  rewrite <- one_target_matches.
  generalize Menus. intros l. induction l as [| m l IH].
  - reflexivity.
  - cbn [map filter].
    destruct (menu_item_classes (open w) theme (currentView w)
                (MenuClick (currentView w) (anamClient w)) m)
      as (_ & H & _).
    cbv zeta in H. rewrite H.
    destruct (currentView w =? navigateTo m); cbn [length]; rewrite IH;
      reflexivity.
Qed.

(** X8. The layout follows the [open] flag.  Closed: the fragment starts with
    the floating button that opens the sidebar, the panel has the collapsed
    width and the class [hidden], the toggle shows a right chevron and there
    is no heading.  Open: there is no floating button, the panel has the
    expanded width classes and [block] and is not [hidden], the toggle shows
    a left chevron and the heading "Teacher" is rendered. *)
Theorem layout_follows_open_flag :
  forall theme w,
    length (render theme w) = (if open w then 1 else 2)
    /\ option_map tag_of (the_open_button (render theme w))
       = (if open w then None else Some "IconButton")
    /\ (exists p,
           the_panel (render theme w) = Some p
           /\ has_class "block" p = open w
           /\ has_class "hidden" p = negb (open w)
           /\ has_class "w-[20vw]" p = open w
           /\ has_class "max-w-[400px]" p = open w
           /\ has_class "w-0" p = negb (open w))
    /\ option_map (fun t => map tag_of (children_of t))
                  (the_toggle (render theme w))
       = Some [if open w then "ChevronLeft" else "ChevronRight"]
    /\ option_map children_of (the_heading (render theme w))
       = (if open w then Some [TextNode "Teacher"] else None).
Proof.
  intros theme [o v l a]. destruct o; cbn [open].
  - repeat split. eexists. split; [ reflexivity | ].
    vm_compute. repeat split.
  - repeat split. eexists. split; [ reflexivity | ].
    vm_compute. repeat split.
Qed.

(** X9. The brand icon of the header gets the rotation class exactly when
    the sidebar is open; when it is closed, the boolean of the template
    literal is interpolated as text, and the icon carries the class
    [false]. *)
Theorem brand_icon_classes :
  forall theme w,
    exists b,
      the_brand (render theme w) = Some b
      /\ tag_of b = "BrainCircuit"
      /\ has_class "rotate-[360deg]" b = open w
      /\ has_class "false" b = negb (open w)
      /\ class_tokens (className_of b)
         = ["cursor-pointer"; "duration-500"; "w-10"; "h-10";
            if open w then "rotate-[360deg]" else "false"].
Proof.
  intros theme [o v l a]. destruct o; cbn [open];
    (eexists; split; [ reflexivity | ]); vm_compute; repeat split.
Qed.

(** X10. Opening and toggling.  A click on the toggle flips the [open] flag
    and nothing else, and a second click, on the toggle of the new render,
    restores the state; the closure of one render sets the flag to the
    negation of that render's value, so running it twice flips once.  A
    click on the floating button opens the sidebar, after which the button
    is no longer rendered.  None of these clicks navigates, changes the
    view or calls the streaming client. *)
Theorem toggle_and_open_button :
  forall theme w,
    click_on the_toggle theme w
    = (Normal tt,
       {| open := negb (open w); currentView := currentView w;
          location := location w; anamClient := anamClient w |},
       [SetOpen (negb (open w))])
    /\ exec (click_on the_toggle theme) (exec (click_on the_toggle theme) w)
       = w
    /\ exec (dispatch (ToggleSidebar (open w)))
            (exec (dispatch (ToggleSidebar (open w))) w)
       = exec (dispatch (ToggleSidebar (open w))) w
    /\ click_on the_open_button theme w
       = (if open w
          then (Normal tt, w, [])
          else (Normal tt,
                {| open := true; currentView := currentView w;
                   location := location w; anamClient := anamClient w |},
                [SetOpen true]))
    /\ the_open_button
         (render theme (exec (click_on the_open_button theme) w))
       = None.
Proof.
  intros theme [o v l a]. destruct o; repeat split.
Qed.

End SidebarViewProperties.

(** ** Further properties of the avatar panel *)
Module AvatarRuns.
Import AvatarContainer.
Import VDom.
Import AvatarView.
Import AvatarProperties.

Lemma exec_step_frame : forall a x, same_frame x (exec (step a) x).
Proof.
  intros a x. destruct (step_spec a x) as (x' & t & E & F & _).
  unfold exec. rewrite E. exact F.
Qed.

Lemma find_app_last_miss :
  forall (f : Timer -> bool) l t,
    f t = false -> find f (l ++ [t]) = find f l.
Proof.
  intros f l t Hf. induction l as [| y l IH].
  - cbn. rewrite Hf. reflexivity.
  - cbn. destruct (f y); [ reflexivity | exact IH ].
Qed.

Lemma firings_cons :
  forall i a l,
    firings i (a :: l)
    = (match a with
       | Tick j => if Nat.eqb j i then 1 else 0
       | _ => 0
       end + firings i l).
Proof.
  intros i a l. unfold firings. cbn [filter].
  destruct a as [j | | | ]; try reflexivity.
  destruct (Nat.eqb j i); reflexivity.
Qed.

Lemma step_counts :
  forall a x tm i,
    timers x = tm ++ [mkTimer i 1000 (self x)] ->
    i = fresh_timer_id tm ->
    no_timer_of (self x) tm = true ->
    secondsElapsed (exec (step a) x)
    = (secondsElapsed x
       + Z.of_nat match a with
                  | Tick j => if Nat.eqb j i then 1 else 0
                  | _ => 0
                  end)%Z.
Proof.
  intros a x tm i Ht Hi Hno. destruct a as [j | ev | | ]; unfold exec;
    cbn [step].
  - destruct (Nat.eqb_spec j i) as [-> | Hne].
    + rewrite (fire_timer_own x i (mkTimer i 1000 (self x))).
      * reflexivity.
      * rewrite Ht, Hi. apply find_fresh_timer.
      * reflexivity.
    + unfold fire_timer, bind, read. rewrite Ht.
      rewrite find_app_last_miss
        by (cbn; apply Nat.eqb_neq; intros H; apply Hne; auto).
      destruct (find _ tm) as [t|] eqn:Hf; cbn; [ | lia ].
      apply find_some in Hf as [Hin _].
      unfold no_timer_of in Hno. rewrite forallb_forall in Hno.
      specialize (Hno t Hin). apply negb_true_iff in Hno. rewrite Hno.
      cbn. lia.
  - destruct (client_emits_spec ev x) as (x' & E & _ & S & _).
    rewrite E. cbn [fst snd]. lia.
  - destruct (startStreaming_resume_spec x) as (x' & t & E & _ & _ & _ & S).
    rewrite E. cbn [fst snd]. lia.
  - cbn. lia.
Qed.

Lemma run_counts :
  forall acts x tm i,
    timers x = tm ++ [mkTimer i 1000 (self x)] ->
    i = fresh_timer_id tm ->
    no_timer_of (self x) tm = true ->
    secondsElapsed (exec (run acts) x)
    = (secondsElapsed x + Z.of_nat (firings i acts))%Z.
Proof.
  induction acts as [| a acts IH]; intros x tm i Ht Hi Hno.
  - cbn. lia.
  - rewrite exec_run_cons, firings_cons.
    destruct (exec_step_frame a x) as (Hs & _ & _ & _ & _ & _ & Htm).
    rewrite (IH (exec (step a) x) tm i).
    + rewrite (step_counts a x tm i Ht Hi Hno). lia.
    + rewrite Htm, Hs. exact Ht.
    + exact Hi.
    + rewrite Hs. exact Hno.
Qed.

Lemma mount_state :
  forall inst w,
    let w1 := exec (mount inst) w in
    self w1 = inst
    /\ loading w1 = true
    /\ loadingText w1 = "Connecting..."
    /\ secondsElapsed w1 = 0%Z
    /\ interval w1 = Some (fresh_timer_id (timers w))
    /\ timers w1
       = timers w ++ [mkTimer (fresh_timer_id (timers w)) 1000 inst].
Proof.
  intros inst w w1. subst w1. unfold exec.
  pose proof (mount_spec inst w) as Hm. cbv zeta in Hm. rewrite Hm.
  repeat split.
Qed.

(** X11. The counter counts the firings of the panel's own interval: at any
    point of a mounted life its value is the number of times that interval
    has fired since the mount; firings of other timers, lifecycle events,
    the settlement of the streaming call and renders of the child do not
    move it.  That value is the [secondsElapsed] prop handed to
    [DemoControls]. *)
Theorem counter_counts_own_interval :
  forall inst w acts,
    fresh_instance inst w = true ->
    let i := fresh_timer_id (timers w) in
    let w2 := exec (run acts) (exec (mount inst) w) in
    interval w2 = Some i
    /\ secondsElapsed w2 = Z.of_nat (firings i acts)
    /\ option_map (prop_of "secondsElapsed") (the_demo_controls (render w2))
       = Some (Some (Num (Z.of_nat (firings i acts)))).
Proof.
  intros inst w acts Hfresh i w2.
  destruct (mount_state inst w) as (Hs1 & _ & _ & Hse1 & Hi1 & Ht1).
  set (w1 := exec (mount inst) w) in *.
  destruct (exec_run_frame acts w1) as (_ & _ & _ & _ & _ & Hi2 & _).
  fold w2 in Hi2.
  assert (Hse : secondsElapsed w2 = Z.of_nat (firings i acts)).
  { subst w2. rewrite (run_counts acts w1 (timers w) i).
    - rewrite Hse1. lia.
    - rewrite Ht1, Hs1. reflexivity.
    - reflexivity.
    - rewrite Hs1. apply fresh_instance_timers. exact Hfresh. }
  split; [ rewrite Hi2; exact Hi1 | ].
  split; [ exact Hse | ].
  rewrite <- Hse. unfold the_demo_controls, render.
  destruct (loading w2); reflexivity.
Qed.

Lemma counter_counts_own_interval_witness :
  let c := mkClient [(OTHER_EVENT "x", callback 7 onConnectionClosed)]
                    Fulfilled (Rejected "no camera") in
  let w := mkWorld 0 false "" 5 None None (Some c) true None None
                   [mkTimer 3 50 9] in
  let acts := [Tick 4; Tick 3; ClientEmits CONNECTION_CLOSED; Tick 4;
               StreamSettles; Tick 9] in
  fresh_instance 1 w = true
  /\ secondsElapsed (exec (run acts) (exec (mount 1) w)) = 2%Z.
Proof.
  intros c w acts.
  split; [ reflexivity | ].
  exact (proj1 (proj2 (counter_counts_own_interval 1 w acts eq_refl))).
Defined.

(** *** A panel whose callbacks are not in the registry *)

Lemma client_emits_unregistered :
  forall ev x, unregistered x -> client_emits ev x = (Normal tt, x, []).
Proof.
  intros ev x Hu. unfold client_emits, bind, read. unfold unregistered in Hu.
  destruct (anamClient x) as [c|]; [ | reflexivity ].
  pose proof (invoke_listeners_foreign (self x) ev (listeners c) [] x Hu)
    as H.
  rewrite app_nil_r in H. rewrite H. reflexivity.
Qed.

Lemma run_unregistered :
  forall acts x,
    unregistered x ->
    loading (exec (run acts) x) = loading x
    /\ loadingText (exec (run acts) x) = loadingText x.
Proof.
  induction acts as [| a acts IH]; intros x Hu.
  - split; reflexivity.
  - rewrite exec_run_cons.
    destruct (exec_step_frame a x) as (Hs & _ & _ & Hc & _).
    assert (Hu' : unregistered (exec (step a) x)).
    { unfold unregistered. rewrite Hc, Hs. exact Hu. }
    destruct (IH _ Hu') as [Hl Ht]. rewrite Hl, Ht.
    destruct a as [i | ev | | ].
    + apply step_keeps_loading. discriminate.
    + unfold exec. cbn [step]. rewrite (client_emits_unregistered ev x Hu).
      split; reflexivity.
    + apply step_keeps_loading. discriminate.
    + apply step_keeps_loading. discriminate.
Qed.

Lemma unmount_state :
  forall x,
    self (exec unmount x) = self x
    /\ loading (exec unmount x) = loading x
    /\ loadingText (exec unmount x) = loadingText x
    /\ secondsElapsed (exec unmount x) = secondsElapsed x.
Proof.
  intros x. unfold exec. rewrite unmount_spec. repeat split.
Qed.

Lemma render_ext :
  forall x y,
    loading x = loading y -> loadingText x = loadingText y ->
    secondsElapsed x = secondsElapsed y ->
    render x = render y.
Proof.
  intros x y Hl Ht Hs. unfold render. rewrite Hl, Ht, Hs. reflexivity.
Qed.

(** X12. Once the panel is unmounted, nothing reaches it any more: whatever
    the client emits and whichever timers fire afterwards, its loading flag,
    its message and its counter stay as the unmount left them, so what it
    would render does not change. *)
Theorem unmounted_panel_is_inert :
  forall inst w acts acts',
    fresh_instance inst w = true ->
    let w3 := exec unmount (exec (run acts) (exec (mount inst) w)) in
    let w4 := exec (run acts') w3 in
    loading w4 = loading w3
    /\ loadingText w4 = loadingText w3
    /\ secondsElapsed w4 = secondsElapsed w3
    /\ render w4 = render w3.
Proof.
  intros inst w acts acts' Hfresh w3 w4.
  destruct (life_spec inst acts w Hfresh) as (x3 & t3 & _ & Ex & Hc3 & Ht3).
  fold w3 in Ex. subst x3.
  destruct (mount_state inst w) as (Hs1 & _).
  destruct (exec_run_frame acts (exec (mount inst) w)) as (Hs2 & _).
  destruct (unmount_state (exec (run acts) (exec (mount inst) w)))
    as (Hs3 & _).
  fold w3 in Hs3.
  assert (Hself : self w3 = inst) by congruence.
  assert (Hfresh3 : fresh_instance inst w3 = true).
  { rewrite (fresh_instance_ext inst w w3 Hc3 Ht3). exact Hfresh. }
  assert (Hu : unregistered w3).
  { unfold unregistered. rewrite Hself.
    destruct (anamClient w3) as [c|] eqn:Ec; [ | exact I ].
    exact (fresh_instance_listeners inst w3 c Hfresh3 Ec). }
  destruct (run_unregistered acts' w3 Hu) as [Hl Ht].
  fold w4 in Hl, Ht.
  assert (Hse : secondsElapsed w4 = secondsElapsed w3).
  { subst w4. apply run_no_timer. rewrite Hself.
    apply fresh_instance_timers. exact Hfresh3. }
  repeat split; auto. apply render_ext; assumption.
Qed.

Lemma unmounted_panel_is_inert_witness :
  let c := mkClient [(OTHER_EVENT "x", callback 7 onConnectionClosed)]
                    Fulfilled Fulfilled in
  let w := mkWorld 0 false "" 5 None None (Some c) true None None
                   [mkTimer 3 50 9] in
  let w3 := exec unmount (exec (run [Tick 4]) (exec (mount 1) w)) in
  fresh_instance 1 w = true
  /\ render (exec (run [ClientEmits VIDEO_PLAY_STARTED; Tick 4]) w3)
     = render w3.
Proof.
  intros c w w3.
  split; [ reflexivity | ].
  destruct (unmounted_panel_is_inert
              1 w [Tick 4] [ClientEmits VIDEO_PLAY_STARTED; Tick 4] eq_refl)
    as (_ & _ & _ & H).
  exact H.
Defined.

(** X13. When the panel mounts without a client, or with a client that is
    not initialized, it makes no call on the client at all (no listener, no
    streaming call), and as long as the context stays so no event can end
    the loading state: the spinner keeps showing "Connecting...".  The
    interval is started all the same. *)
Theorem mount_without_ready_client_keeps_loading :
  forall inst w acts,
    fresh_instance inst w = true ->
    isClientInitialized w = false \/ anamClient w = None ->
    let w1 := exec (mount inst) w in
    let w2 := exec (run acts) w1 in
    trace_of (mount inst) w = [Call_setInterval 1000]
    /\ anamClient w1 = anamClient w
    /\ awaiting_stream w1 = None
    /\ loading w2 = true
    /\ loadingText w2 = "Connecting..."
    /\ spinner_label (render w2) = Some "Connecting...".
Proof.
  intros inst w acts Hfresh Hskip w1 w2.
  pose proof (mount_spec inst w) as Hm. cbv zeta in Hm.
  assert (Hreg : match isClientInitialized w, anamClient w with
                 | true, Some _ => true
                 | _, _ => false
                 end = false).
  { destruct Hskip as [-> | ->]; [ reflexivity | ].
    destruct (isClientInitialized w); reflexivity. }
  rewrite Hreg in Hm.
  assert (H1 : anamClient w1 = anamClient w /\ awaiting_stream w1 = None).
  { subst w1. unfold exec. rewrite Hm. split; reflexivity. }
  destruct H1 as [Hc1 Ha1].
  destruct (mount_state inst w) as (Hs1 & Hl1 & Ht1 & _).
  fold w1 in Hs1, Hl1, Ht1.
  assert (Hu : unregistered w1).
  { unfold unregistered. rewrite Hc1, Hs1.
    destruct (anamClient w) as [c|] eqn:Ec; [ | exact I ].
    exact (fresh_instance_listeners inst w c Hfresh Ec). }
  destruct (run_unregistered acts w1 Hu) as [Hl Ht]. fold w2 in Hl, Ht.
  rewrite Hl1 in Hl. rewrite Ht1 in Ht.
  split; [ unfold trace_of; rewrite Hm; reflexivity | ].
  repeat (split; [ assumption | ]).
  unfold spinner_label, spinner_of, render. rewrite Hl, Ht. reflexivity.
Qed.

Lemma mount_without_ready_client_keeps_loading_witness :
  let c := mkClient [] Fulfilled Fulfilled in
  let w := mkWorld 0 false "" 5 None None (Some c) false None None [] in
  let acts := [ClientEmits VIDEO_PLAY_STARTED; Tick 1;
               ClientEmits CONNECTION_CLOSED] in
  (fresh_instance 1 w = true
   /\ (isClientInitialized w = false \/ anamClient w = None))
  /\ loading (exec (run acts) (exec (mount 1) w)) = true.
Proof.
  intros c w acts.
  assert (Hs : isClientInitialized w = false \/ anamClient w = None)
    by (left; reflexivity).
  split; [ split; [ reflexivity | exact Hs ] | ].
  destruct (mount_without_ready_client_keeps_loading 1 w acts eq_refl Hs)
    as (_ & _ & _ & H & _).
  exact H.
Defined.

(** X14. Settlement of the streaming call.  When the promise of
    [streamToVideoAndAudioElements] rejects with [e], [startStreaming]
    catches it and hands it to [errorHandler], once, and completes normally;
    when it is fulfilled, nothing more is called.  Either way the settlement
    changes neither the spinner state nor the registered listeners, and a
    panel that has no streaming call in flight does nothing. *)
Theorem stream_settlement_is_handled_once :
  forall inst w c,
    anamClient w = Some c ->
    isClientInitialized w = true ->
    let r := streamToVideoAndAudioElements_result c in
    let w1 := exec (mount inst) w in
    let w2 := exec startStreaming_resume w1 in
    awaiting_stream w1 = Some r
    /\ startStreaming_resume w1
       = (Normal tt, w2,
          Promise_settled r
          :: match r with
             | Fulfilled => []
             | Rejected e => [ErrorHandler e]
             end)
    /\ loading w2 = true
    /\ loadingText w2 = "Connecting..."
    /\ anamClient w2 = anamClient w1
    /\ option_map listeners (anamClient w2)
       = Some (listeners c ++ registrations inst)
    /\ startStreaming_resume w2 = (Normal tt, w2, []).
Proof.
  intros inst w c Hc Hi r w1 w2.
  pose proof (mount_spec inst w) as Hm. cbv zeta in Hm.
  rewrite Hc, Hi in Hm. cbn [option_map] in Hm.
  subst w2 w1. unfold exec. rewrite Hm. cbn [fst snd awaiting_stream].
  fold r. split; [ reflexivity | ].
  destruct r as [|e]; repeat split.
Qed.

Lemma stream_settlement_is_handled_once_witness :
  let c := mkClient [] Fulfilled (Rejected "no camera") in
  let w := mkWorld 0 false "" 5 None None (Some c) true None None [] in
  (anamClient w = Some c /\ isClientInitialized w = true)
  /\ trace_of startStreaming_resume (exec (mount 1) w)
     = [Promise_settled (Rejected "no camera"); ErrorHandler "no camera"].
Proof.
  intros c w.
  split; [ split; reflexivity | ].
  destruct (stream_settlement_is_handled_once 1 w c eq_refl eq_refl)
    as (_ & H & _).
  unfold trace_of. rewrite H. reflexivity.
Defined.

(** X15. The panel leaks no interval: while it is mounted the browser has
    exactly one interval more than before, the panel's own, with a period of
    1000 ms; after the unmount, and after any number of successive lives,
    the active intervals are those there were before, and every life
    completes normally, however the streaming call settles. *)
Theorem no_interval_outlives_the_panel :
  forall inst w acts lives,
    fresh_instance inst w = true ->
    Forall (fun life => fresh_instance (fst life) w = true) lives ->
    let w2 := exec (run acts) (exec (mount inst) w) in
    timers w2 = timers w ++ [mkTimer (fresh_timer_id (timers w)) 1000 inst]
    /\ (forall t, In t (timers w) -> timer_id t <> fresh_timer_id (timers w))
    /\ timers (exec unmount w2) = timers w
    /\ fst (fst (remounts lives w)) = Normal tt
    /\ timers (exec (remounts lives) w) = timers w.
Proof.
  intros inst w acts lives Hfresh Hlives w2.
  destruct (mount_state inst w) as (_ & _ & _ & _ & _ & Ht1).
  destruct (exec_run_frame acts (exec (mount inst) w))
    as (_ & _ & _ & _ & _ & _ & Ht2).
  fold w2 in Ht2.
  destruct (life_spec inst acts w Hfresh) as (x3 & t3 & _ & Ex & _ & Ht3).
  fold w2 in Ex. subst x3.
  destruct (remounts_spec lives w Hlives) as (w' & t & E & _ & Ht).
  split; [ congruence | ].
  split.
  { intros t0 Hin. pose proof (timer_id_below_fresh (timers w) t0 Hin). lia. }
  split; [ exact Ht3 | ].
  unfold exec. rewrite E. split; [ reflexivity | exact Ht ].
Qed.

Lemma no_interval_outlives_the_panel_witness :
  let c := mkClient [] Fulfilled (Rejected "no camera") in
  let w := mkWorld 0 false "" 5 None None (Some c) true None None
                   [mkTimer 3 50 9] in
  let lives := [(1, [Tick 4; StreamSettles]); (2, [Tick 4])] in
  (fresh_instance 1 w = true
   /\ Forall (fun life => fresh_instance (fst life) w = true) lives)
  /\ timers (exec (remounts lives) w) = timers w.
Proof.
  intros c w lives.
  assert (Hl : Forall (fun life => fresh_instance (fst life) w = true) lives)
    by (repeat constructor).
  split; [ split; [ reflexivity | exact Hl ] | ].
  destruct (no_interval_outlives_the_panel 1 w [] lives eq_refl Hl)
    as (_ & _ & _ & _ & H).
  exact H.
Defined.

(** X16. The spinner shows what the lifecycle events say.  A render shows
    the spinner block exactly when the loading flag is set, and its label is
    the loading message.  After a mount that registered the listeners, the
    spinner is gone as soon as video-play-started or connection-closed has
    been emitted; until then its label reads "Connecting...", or "Connected
    to a Persona." once connection-established has been emitted. *)
Theorem spinner_shows_connection_progress :
  forall inst w c acts,
    fresh_instance inst w = true ->
    anamClient w = Some c ->
    isClientInitialized w = true ->
    let w2 := exec (run acts) (exec (mount inst) w) in
    (forall x, spinner_label (render x)
               = if loading x then Some (loadingText x) else None)
    /\ (forall x, spinner_of (render x) = None <-> loading x = false)
    /\ spinner_label (render w2)
       = if emitted VIDEO_PLAY_STARTED acts || emitted CONNECTION_CLOSED acts
         then None
         else Some (if emitted CONNECTION_ESTABLISHED acts
                    then "Connected to a Persona." else "Connecting...").
Proof.
  intros inst w c acts Hfresh Hc Hi w2.
  assert (Hlab : forall x, spinner_label (render x)
                           = if loading x then Some (loadingText x)
                             else None).
  { intros x. unfold spinner_label, spinner_of, render.
    destruct (loading x); reflexivity. }
  split; [ exact Hlab | ].
  split.
  { intros x. unfold spinner_of, render.
    destruct (loading x); cbn; split; congruence. }
  rewrite Hlab.
  pose proof (mount_spec inst w) as Hm. cbv zeta in Hm.
  rewrite Hc, Hi in Hm. cbn [option_map] in Hm.
  destruct (mount_state inst w) as (Hs1 & Hl1 & Ht1 & _).
  assert (Hc1 : anamClient (exec (mount inst) w)
                = Some (set_listeners (listeners c ++ registrations inst) c)).
  { unfold exec. rewrite Hm. reflexivity. }
  pose proof (fresh_instance_listeners inst w c Hfresh Hc) as Hno.
  destruct (run_loading inst (listeners c) _ acts (exec (mount inst) w)
                        Hs1 Hc1 eq_refl Hno) as [Hl2 Ht2].
  fold w2 in Hl2, Ht2. rewrite Hl2, Ht2, Hl1, Ht1. cbn [andb].
  destruct (emitted VIDEO_PLAY_STARTED acts || emitted CONNECTION_CLOSED acts);
    reflexivity.
Qed.

Lemma spinner_shows_connection_progress_witness :
  let c := mkClient [(OTHER_EVENT "x", callback 7 onConnectionClosed)]
                    Fulfilled Fulfilled in
  let w := mkWorld 0 false "" 5 None None (Some c) true None None [] in
  let acts := [ClientEmits CONNECTION_ESTABLISHED; Tick 1] in
  (fresh_instance 1 w = true /\ anamClient w = Some c
   /\ isClientInitialized w = true)
  /\ spinner_label (render (exec (run acts) (exec (mount 1) w)))
     = Some "Connected to a Persona.".
Proof.
  intros c w acts.
  split; [ repeat split | ].
  destruct (spinner_shows_connection_progress
              1 w c acts eq_refl eq_refl eq_refl) as (_ & _ & H).
  exact H.
Defined.

(** X17. The media elements.  Every render has the video element attached
    to [videoRef] and the audio element attached to [audioRef], whether the
    spinner shows or not; the audio element is hidden, the video element is
    not; and the ids the mount passes to [streamToVideoAndAudioElements]
    are the ids of these two rendered elements, in that order. *)
Theorem streaming_targets_are_the_rendered_elements :
  forall inst w c x,
    anamClient w = Some c ->
    isClientInitialized w = true ->
    exists v a vid aid,
      element_of_ref "videoRef" (render x) = Some v
      /\ element_of_ref "audioRef" (render x) = Some a
      /\ tag_of v = "video" /\ tag_of a = "audio"
      /\ id_of v = Some vid /\ id_of a = Some aid
      /\ prop_of "hidden" a = Some Flag
      /\ prop_of "hidden" v = None
      /\ videoRef (exec (mount inst) w) = Some (mkElement vid)
      /\ audioRef (exec (mount inst) w) = Some (mkElement aid)
      /\ In (Call_streamToVideoAndAudioElements vid aid)
            (trace_of (mount inst) w).
Proof.
  intros inst w c x Hc Hi.
  pose proof (mount_spec inst w) as Hm. cbv zeta in Hm.
  rewrite Hc, Hi in Hm.
  unfold exec, trace_of. rewrite Hm. cbn [fst snd videoRef audioRef].
  unfold element_of_ref, render.
  destruct (loading x);
    (eexists _, _, _, _;
     repeat (split; [ reflexivity | ]);
     cbn; tauto).
Qed.

Lemma streaming_targets_are_the_rendered_elements_witness :
  let c := mkClient [] Fulfilled Fulfilled in
  let w := mkWorld 0 false "" 5 None None (Some c) true None None [] in
  (anamClient w = Some c /\ isClientInitialized w = true)
  /\ exists v a vid aid,
       element_of_ref "videoRef" (render w) = Some v
       /\ element_of_ref "audioRef" (render w) = Some a
       /\ tag_of v = "video" /\ tag_of a = "audio"
       /\ id_of v = Some vid /\ id_of a = Some aid
       /\ prop_of "hidden" a = Some Flag
       /\ prop_of "hidden" v = None
       /\ videoRef (exec (mount 1) w) = Some (mkElement vid)
       /\ audioRef (exec (mount 1) w) = Some (mkElement aid)
       /\ In (Call_streamToVideoAndAudioElements vid aid)
             (trace_of (mount 1) w).
Proof.
  intros c w.
  split; [ split; reflexivity | ].
  exact (streaming_targets_are_the_rendered_elements
           1 w c w eq_refl eq_refl).
Defined.

End AvatarRuns.
